(** * refnx.reduce.parabolic_motion: parabolic flight under gravity

    A shallow embedding of [refnx/reduce/parabolic_motion.py] and the
    properties its specification states about it.

    Numbers.  The Python code computes with numpy float64 values.  They are
    modelled by the real numbers of the Standard Library: [+], [*], [/],
    [tan], [cos], [atan] and [sqrt] stand for the operations numpy rounds.
    IEEE-754 infinities and NaN (what a zero speed produces) have no
    counterpart in the model; the specification puts them out of contract,
    and the theorems on the parabola assume speed * cos(launch angle) is
    not zero, so that no division is by zero.

    Library code.  [numpy.polynomial.polynomial] ([polyval], [polyder],
    [polyroots]), [np.max], [np.sqrt] and [scipy.optimize.newton] are not part
    of the repository; the modules [Numpy] and [Scipy] below model the parts
    of them the module calls. *)

From Stdlib Require Import Reals Lra Lia List FunctionalExtensionality.
Import ListNotations.

Local Open Scope R_scope.

(** ** Exceptions *)

(** The two exceptions the libraries under the module can raise. *)
Inductive exn : Type :=
| ValueError     (* np.max of an empty array *)
| RuntimeError.  (* scipy.optimize.newton: failed to converge *)

Inductive result (A : Type) : Type :=
| Ok (a : A)
| Raise (e : exn).

Arguments Ok {A} a.
Arguments Raise {A} e.

Definition bind {A B : Type} (m : result A) (k : A -> result B) : result B :=
  match m with
  | Ok a => k a
  | Raise e => Raise e
  end.

Notation "x <- m ;; k" := (bind m (fun x => k))
  (at level 61, m at next level, right associativity).

Definition is_raise {A : Type} (m : result A) : Prop :=
  match m with Ok _ => False | Raise _ => True end.

(** ** Constants and unit conversions *)

(** Modelled from the spec: [scipy.constants.g], the standard acceleration of
    gravity, 9.80665 m/s^2 (the spec's "standard gravitational
    acceleration"). *)
Definition g : R := 980665 / 100000.

(** [np.radians] and [np.degrees]. *)
Definition radians (x : R) : R := x * PI / 180.
Definition degrees (x : R) : R := x * 180 / PI.

Module Numpy.

(** ** numpy.polynomial.polynomial *)

(** [polyval(x, c)]: Horner's scheme from the highest coefficient,
    [c0 = c[-1] + x*0; for i in 2..len(c): c0 = c[-i] + c0*x]. *)
Definition polyval (x : R) (c : list R) : R :=
  match rev c with
  | [] => 0
  | last :: rest => fold_left (fun c0 ci => ci + c0 * x) rest (last + x * 0)
  end.

(** The loop of [polyder]: [der[j-1] = j * c[j]], here for the tail of the
    series, whose first element has index [j]. *)
Fixpoint polyder_from (j : nat) (tl : list R) : list R :=
  match tl with
  | [] => []
  | cj :: tl' => INR j * cj :: polyder_from (S j) tl'
  end.

(** [polyder(c)] with the default [m = 1]: a series of length at most one
    differentiates to [c[:1]*0]. *)
Definition polyder (c : list R) : list R :=
  match c with
  | [] => []
  | [_] => [0]
  | _ :: tl => polyder_from 1 tl
  end.

(** ** Scalars and arrays *)

(** A numpy scalar of dtype float64 or complex128. *)
Inductive scalar : Type :=
| Real (r : R)
| Complex (re im : R).

Definition re (z : scalar) : R :=
  match z with Real r => r | Complex a _ => a end.

Definition im (z : scalar) : R :=
  match z with Real _ => 0 | Complex _ b => b end.

(** Arithmetic with numpy's type promotion: float with float is float,
    anything with complex is complex. *)
Definition add (z w : scalar) : scalar :=
  match z, w with
  | Real x, Real y => Real (x + y)
  | _, _ => Complex (re z + re w) (im z + im w)
  end.

Definition sub (z w : scalar) : scalar :=
  match z, w with
  | Real x, Real y => Real (x - y)
  | _, _ => Complex (re z - re w) (im z - im w)
  end.

Definition mul (z w : scalar) : scalar :=
  match z, w with
  | Real x, Real y => Real (x * y)
  | _, _ => Complex (re z * re w - im z * im w) (re z * im w + im z * re w)
  end.

(** [z ** 2]. *)
Definition sqr (z : scalar) : scalar := mul z z.

(** [np.sqrt]: the real square root of a float, the principal square root of
    a complex number. *)
Definition sqrt (z : scalar) : scalar :=
  match z with
  | Real r => Real (R_sqrt.sqrt r)
  | Complex a b =>
      let m := R_sqrt.sqrt (a ^ 2 + b ^ 2) in
      Complex (R_sqrt.sqrt ((m + a) / 2))
              ((if Rle_dec 0 b then 1 else -1) * R_sqrt.sqrt ((m - a) / 2))
  end.

(** A one-dimensional array of dtype float64 or complex128. *)
Inductive ndarray : Type :=
| RealArray (l : list R)
| ComplexArray (l : list (R * R)).

(** numpy orders complex numbers lexicographically: by real part, then by
    imaginary part. *)
Definition cmax (z w : R * R) : R * R :=
  if Rlt_dec (fst z) (fst w) then w
  else if Req_dec_T (fst z) (fst w) then
         if Rlt_dec (snd z) (snd w) then w else z
       else z.

(** [np.max(a)]: a [ValueError] on an empty array ("zero-size array to
    reduction operation maximum which has no identity"). *)
Definition max (a : ndarray) : result scalar :=
  match a with
  | RealArray [] => Raise ValueError
  | RealArray (x :: l) => Ok (Real (fold_left Rmax l x))
  | ComplexArray [] => Raise ValueError
  | ComplexArray (z :: l) =>
      let m := fold_left cmax l z in Ok (Complex (fst m) (snd m))
  end.

(** [polyroots([c0, c1, c2])], the one shape of call the module makes.
    numpy trims the trailing zero coefficients; a constant series has no
    root, a linear one the root [-c0/c1], and a quadratic one the eigenvalues
    of its companion matrix, sorted: the two roots of the quadratic, an array
    of floats when they are real and of complex numbers when they are not. *)
Definition polyroots (c0 c1 c2 : R) : ndarray :=
  if Req_dec_T c2 0 then
    if Req_dec_T c1 0 then RealArray []
    else RealArray [- c0 / c1]
  else
    let disc := c1 ^ 2 - 4 * c2 * c0 in
    if Rle_dec 0 disc then
      let r1 := (- c1 - R_sqrt.sqrt disc) / (2 * c2) in
      let r2 := (- c1 + R_sqrt.sqrt disc) / (2 * c2) in
      RealArray [Rmin r1 r2; Rmax r1 r2]
    else
      let a := - c1 / (2 * c2) in
      let b := R_sqrt.sqrt (- disc) / (2 * Rabs c2) in
      ComplexArray [(a, - b); (a, b)].

End Numpy.

Module Scipy.

(** ** scipy.optimize.newton

    The call [newton(func, x0)] gives no derivative, so scipy runs the secant
    method with its default arguments: [tol = 1.48e-8], [maxiter = 50],
    [rtol = 0], [disp = True]. *)

Definition tol : R := 148 / 10000000000.
Definition maxiter : nat := 50.
Definition eps : R := 1 / 10000.

(** [np.isclose(p, p1, rtol=0, atol=tol)]. *)
Definition isclose (p p1 : R) : {Rabs (p - p1) <= tol + 0 * Rabs p1}
                              + {~ Rabs (p - p1) <= tol + 0 * Rabs p1} :=
  Rle_dec (Rabs (p - p1)) (tol + 0 * Rabs p1).

(** The next secant iterate. *)
Definition secant_step (p0 q0 p1 q1 : R) : R :=
  if Rlt_dec (Rabs q0) (Rabs q1)
  then (- q0 / q1 * p1 + p0) / (1 - q0 / q1)
  else (- q1 / q0 * p0 + p1) / (1 - q1 / q0).

(** The loop [for itr in range(maxiter)], with [n] iterations left; falling
    out of the loop raises "Failed to converge after %d iterations". *)
Fixpoint secant (func : R -> R) (n : nat) (p0 q0 p1 q1 : R) : result R :=
  match n with
  | O => Raise RuntimeError
  | S n' =>
      if Req_dec_T q1 q0 then
        if Req_dec_T p1 p0 then Ok ((p1 + p0) / 2)
        else Raise RuntimeError
      else
        let p := secant_step p0 q0 p1 q1 in
        if isclose p p1 then Ok p
        else secant func n' p1 q1 p (func p)
  end.

Definition newton (func : R -> R) (x0 : R) : result R :=
  let p0 := x0 * 1 in
  let p1 := x0 * (1 + eps) in
  let p1 := p1 + (if Rle_dec 0 p1 then eps else - eps) in
  let q0 := func p0 in
  let q1 := func p1 in
  if Rlt_dec (Rabs q1) (Rabs q0)
  then secant func maxiter p1 q1 p0 q0
  else secant func maxiter p0 q0 p1 q1.

(** The loop seen from outside: its state is the last two points with
    their ordinates; an iteration that neither returns nor raises moves it
    on by [advance]. *)
Definition state : Type := (R * R * R * R)%type.

Definition start (func : R -> R) (x0 : R) : state :=
  let p0 := x0 * 1 in
  let p1 := x0 * (1 + eps) in
  let p1 := p1 + (if Rle_dec 0 p1 then eps else - eps) in
  if Rlt_dec (Rabs (func p1)) (Rabs (func p0))
  then (p1, func p1, p0, func p0)
  else (p0, func p0, p1, func p1).

Definition advance (func : R -> R) (st : state) : state :=
  let '(p0, q0, p1, q1) := st in
  let p := secant_step p0 q0 p1 q1 in (p1, q1, p, func p).

Fixpoint iterate (func : R -> R) (k : nat) (st : state) : state :=
  match k with
  | O => st
  | S k' => iterate func k' (advance func st)
  end.

(** The iteration in state [st] returns [p]: the new iterate is within the
    tolerance of the last one (or the two last points coincide). *)
Definition stops_with (st : state) (p : R) : Prop :=
  let '(p0, q0, p1, q1) := st in
  (q1 = q0 /\ p1 = p0 /\ p = (p1 + p0) / 2)
  \/ (q1 <> q0 /\ p = secant_step p0 q0 p1 q1 /\ Rabs (p - p1) <= tol).

(** The root finder converges to [p] within its budget of iterations. *)
Definition converges (func : R -> R) (x0 : R) (p : R) : Prop :=
  exists k : nat,
    (k < maxiter)%nat /\ stops_with (iterate func k (start func x0)) p.

End Scipy.

(** ** The module *)

(** [parabola_eqn(initial_trajectory, speed)]:
    [np.array([0., tan(traj_rad), -g / 2. / (speed * cos(traj_rad)) ** 2.])].
    The division is numpy's only where [speed * cos traj_rad] is not zero
    (there numpy gives an infinity); the theorems about the coefficients
    assume it is not. *)
Definition parabola_eqn (initial_trajectory speed : R) : list R :=
  let traj_rad := radians initial_trajectory in
  [0; tan traj_rad; - g / 2 / (speed * cos traj_rad) ^ 2].

(** [y_deflection(initial_trajectory, flight_length, speed)]. *)
Definition y_deflection (initial_trajectory flight_length speed : R) : R :=
  let eqn := parabola_eqn initial_trajectory speed in
  Numpy.polyval flight_length eqn.

(** [elevation(initial_trajectory, flight_length, speed)]. *)
Definition elevation (initial_trajectory flight_length speed : R) : R :=
  let eqn := parabola_eqn initial_trajectory speed in
  let dydx := Numpy.polyder eqn in
  degrees (atan (Numpy.polyval flight_length dydx)).

Section FindTrajectory.

(** The root finder [find_trajectory] hands its residual to:
    [scipy.optimize.newton], called as [newton(func, x0)]. *)
Variable newton : (R -> R) -> R -> result R.

(** The closure [traj] of [find_trajectory]. *)
Definition traj (theta flight_length speed : R) (trajectory : R) : R :=
  let theta_rad := radians theta in
  let vertical_deflection_vertex := tan theta_rad * flight_length in
  vertical_deflection_vertex - y_deflection trajectory flight_length speed.

(** [find_trajectory(theta, flight_length, speed)]. *)
Definition find_trajectory (theta flight_length speed : R) : result R :=
  trajectory <- newton (traj theta flight_length speed) 0 ;;
  Ok trajectory.

End FindTrajectory.

(** The coefficients of the quadratic whose roots
    [parabola_line_intersection_point] takes, and the line's intercept and
    gradient. *)
Definition line_a1 (theta flight_length omega : R) : R :=
  flight_length * (tan (radians theta) - tan (radians omega)).

Definition line_b1 (omega : R) : R := tan (radians omega).

(** [parabola_line_intersection_point(initial_trajectory, speed, theta,
    flight_length, omega)]. *)
Definition parabola_line_intersection_point
    (initial_trajectory speed theta flight_length omega : R)
  : result (Numpy.scalar * Numpy.scalar * Numpy.scalar) :=
  let omega_rad := radians omega in
  let theta_rad := radians theta in
  let a1 := flight_length * (tan theta_rad - tan omega_rad) in
  let b1 := tan omega_rad in
  let eqn := parabola_eqn initial_trajectory speed in
  intersection_x <-
    Numpy.max (Numpy.polyroots (nth 0 eqn 0 - a1) (nth 1 eqn 0 - b1)
                               (nth 2 eqn 0)) ;;
  let intersection_y :=
    Numpy.add (Numpy.Real a1) (Numpy.mul intersection_x (Numpy.Real b1)) in
  let distance :=
    Numpy.add
      (Numpy.sqr (Numpy.sub intersection_x (Numpy.Real flight_length)))
      (Numpy.sqr (Numpy.sub intersection_y
                            (Numpy.Real (flight_length * tan theta_rad)))) in
  Ok (intersection_x, intersection_y, Numpy.sqrt distance).

(** ** What the specification speaks of *)

(** The quadratic [c2 x^2 + (c1 - b1) x + (c0 - a1)] of the intersection,
    with [c0 = 0]. *)
Definition quadratic (initial_trajectory speed theta flight_length omega : R)
    (x : R) : R :=
  nth 2 (parabola_eqn initial_trajectory speed) 0 * x ^ 2
  + (nth 1 (parabola_eqn initial_trajectory speed) 0 - line_b1 omega) * x
  + (nth 0 (parabola_eqn initial_trajectory speed) 0
     - line_a1 theta flight_length omega).

(** [x] is the greatest real root of [p]. *)
Definition max_real_root (p : R -> R) (x : R) : Prop :=
  p x = 0 /\ forall x', p x' = 0 -> x' <= x.

Definition has_real_root (p : R -> R) : Prop := exists x, p x = 0.

(** The discriminant and the two roots of [k2 x^2 + k1 x + k0]. *)
Definition discriminant (k0 k1 k2 : R) : R := k1 ^ 2 - 4 * k2 * k0.

Definition root_minus (k0 k1 k2 : R) : R :=
  (- k1 - sqrt (discriminant k0 k1 k2)) / (2 * k2).

Definition root_plus (k0 k1 k2 : R) : R :=
  (- k1 + sqrt (discriminant k0 k1 k2)) / (2 * k2).

Definition no_real_root (p : R -> R) : Prop := forall x, p x <> 0.

(** "Approximately", read generously: within a tenth of the stated value. *)
Definition approx (x y : R) : Prop := Rabs (x - y) <= Rabs y / 10.

(** The scenario of C5 as the specification words it: a negative drop of
    magnitude g (flight_length / speed)^2 / 2, about 1.57e-4 m. *)
Definition scenario_500_0_2_as_stated : Prop :=
  y_deflection 0 2 500 < 0
  /\ Rabs (y_deflection 0 2 500) = g * (2 / 500) ^ 2 / 2
  /\ approx (Rabs (y_deflection 0 2 500)) (157 / 1000000).

(** C6 as the specification words it: at the origin the elevation is the
    initial trajectory, whatever the trajectory. *)
Definition elevation_at_origin_as_stated : Prop :=
  forall initial_trajectory speed : R,
    elevation initial_trajectory 0 speed = initial_trajectory.

(** [f] tends to [l] at 0. *)
Definition tends_to_at_0 (f : R -> R) (l : R) : Prop :=
  forall eps : R, 0 < eps ->
    exists delta : R, 0 < delta /\
      forall x : R, Rabs x < delta -> Rabs (f x - l) < eps.

(** The round trip of C4: the angle under which the point reached from
    [trajectory0] is seen from the origin, in degrees. *)
Definition direction_of (trajectory0 flight_length speed : R) : R :=
  degrees (atan (y_deflection trajectory0 flight_length speed / flight_length)).

(** The initial slope of a trajectory, and the factor g / (2 speed^2) of the
    gravity drop. *)
Definition slope (trajectory : R) : R := tan (radians trajectory).

Definition drop (speed : R) : R := g / (2 * speed ^ 2).

(** The residual [traj] of the round trip from [trajectory0]. *)
Definition residual (trajectory0 flight_length speed : R) : R -> R :=
  traj (direction_of trajectory0 flight_length speed) flight_length speed.

(** The horizontal distance at which a trajectory is level:
    tan(radians(initial_trajectory)) (speed cos(radians(initial_trajectory)))^2 / g. *)
Definition apex (initial_trajectory speed : R) : R :=
  tan (radians initial_trajectory)
  * (speed * cos (radians initial_trajectory)) ^ 2 / g.

(** ** Unfolding lemmas *)

Lemma polyval3 (x c0 c1 c2 : R) :
  Numpy.polyval x [c0; c1; c2] = c0 + c1 * x + c2 * x ^ 2.
Proof. unfold Numpy.polyval; simpl; ring. Qed.

Lemma polyval2 (x c0 c1 : R) :
  Numpy.polyval x [c0; c1] = c0 + c1 * x.
Proof. unfold Numpy.polyval; simpl; ring. Qed.

Lemma polyder3 (c0 c1 c2 : R) :
  Numpy.polyder [c0; c1; c2] = [c1; 2 * c2].
Proof. unfold Numpy.polyder, Numpy.polyder_from.
  replace (INR 1 * c1) with c1 by (simpl; ring).
  replace (INR 2 * c2) with (2 * c2) by (simpl; ring).
  reflexivity. Qed.

Lemma y_deflection_eq (t x s : R) :
  y_deflection t x s
  = tan (radians t) * x + - g / 2 / (s * cos (radians t)) ^ 2 * x ^ 2.
Proof. unfold y_deflection, parabola_eqn; rewrite polyval3; ring. Qed.

Lemma elevation_eq (t x s : R) :
  elevation t x s
  = degrees (atan (tan (radians t)
                   + 2 * (- g / 2 / (s * cos (radians t)) ^ 2) * x)).
Proof. unfold elevation, parabola_eqn; rewrite polyder3, polyval2; reflexivity. Qed.

(** ** Helper facts *)

Lemma radians_0 : radians 0 = 0.
Proof. unfold radians; lra. Qed.

Lemma degrees_radians (x : R) : degrees (radians x) = x.
Proof. unfold degrees, radians; field. apply PI_neq0. Qed.

Lemma degrees_le (x y : R) : x <= y -> degrees x <= degrees y.
Proof.
  intros H; unfold degrees, Rdiv.
  pose proof PI_RGT_0 as Hpi.
  assert (0 < / PI) by (apply Rinv_0_lt_compat; lra).
  apply Rmult_le_compat_r; lra.
Qed.

Lemma atan_le (x y : R) : x <= y -> atan x <= atan y.
Proof.
  intros [H | ->]; [left; apply atan_increasing; exact H | right; reflexivity].
Qed.

(** On a well-defined parabola the quadratic coefficient is negative. *)
Lemma quadratic_coefficient_neg (t s : R) :
  s * cos (radians t) <> 0 -> - g / 2 / (s * cos (radians t)) ^ 2 < 0.
Proof.
  intros HX. set (X := s * cos (radians t)) in *.
  assert (0 < / X ^ 2).
  { apply Rinv_0_lt_compat.
    assert (0 <= X ^ 2) by (apply pow2_ge_0).
    assert (X ^ 2 <> 0) by (apply pow_nonzero; exact HX).
    lra. }
  unfold Rdiv, g. nra.
Qed.

Lemma parabola_eqn_speed_sign (t s : R) :
  parabola_eqn t (- s) = parabola_eqn t s.
Proof.
  unfold parabola_eqn; cbv zeta.
  replace ((- s * cos (radians t)) ^ 2) with ((s * cos (radians t)) ^ 2) by ring.
  reflexivity.
Qed.

(** ** Parabola construction and displacement *)

(** C3: where the parabola is well defined (speed and cos of the launch
    angle not zero), [parabola_eqn] returns exactly three coefficients, in
    ascending order of power: 0, tan(radians(initial_trajectory)) and
    -g / (2 (speed cos(radians(initial_trajectory)))^2); hence
    [y_deflection] at flight length 0 is 0. *)
Theorem parabola_eqn_coefficients (initial_trajectory speed : R) :
  speed * cos (radians initial_trajectory) <> 0 ->
  parabola_eqn initial_trajectory speed
  = [0; tan (radians initial_trajectory);
     - g / (2 * (speed * cos (radians initial_trajectory)) ^ 2)]
  /\ y_deflection initial_trajectory 0 speed = 0.
Proof.
  intros Hs. split.
  - unfold parabola_eqn; cbv zeta. do 3 f_equal.
    field. split; intros E; apply Hs; rewrite E; ring.
  - rewrite y_deflection_eq. ring.
Qed.

Lemma cos_radians_0 (s : R) : s <> 0 -> s * cos (radians 0) <> 0.
Proof. intros H. rewrite radians_0, cos_0. lra. Qed.

Lemma parabola_eqn_coefficients_witness :
  parabola_eqn 0 500
  = [0; tan (radians 0); - g / (2 * (500 * cos (radians 0)) ^ 2)]
  /\ y_deflection 0 0 500 = 0.
Proof. apply (parabola_eqn_coefficients 0 500). apply cos_radians_0; lra. Defined.

Lemma y_deflection_500_0_2 : y_deflection 0 2 500 = - (g * (2 / 500) ^ 2 / 2).
Proof.
  rewrite y_deflection_eq, radians_0, tan_0, cos_0. unfold g. field.
Qed.

(** C5, as stated, fails: the drop g (2/500)^2 / 2 is 7.84532e-5 m, half of
    the 1.57e-4 m the specification quotes. *)
Lemma scenario_500_0_2_not_as_stated : ~ scenario_500_0_2_as_stated.
Proof.
  unfold scenario_500_0_2_as_stated, approx.
  intros (_ & _ & H). revert H.
  rewrite y_deflection_500_0_2. unfold g.
  rewrite Rabs_Ropp.
  rewrite (Rabs_pos_eq (980665 / 100000 * (2 / 500) ^ 2 / 2)) by lra.
  rewrite (Rabs_pos_eq (157 / 1000000)) by lra.
  unfold Rabs; destruct (Rcase_abs _); lra.
Qed.

(** C5, amended: with speed 500 m/s, a horizontal launch and 2 m of flight,
    [y_deflection] is negative, of magnitude g (flight_length / speed)^2 / 2,
    which is 7.84532e-5 m. *)
Theorem scenario_500_0_2 :
  y_deflection 0 2 500 < 0
  /\ Rabs (y_deflection 0 2 500) = g * (2 / 500) ^ 2 / 2
  /\ Rabs (y_deflection 0 2 500) = 784532 / 10000000000.
Proof.
  rewrite y_deflection_500_0_2. unfold g.
  rewrite Rabs_Ropp.
  rewrite (Rabs_pos_eq (980665 / 100000 * (2 / 500) ^ 2 / 2)) by lra.
  repeat split; lra.
Qed.

(** ** Elevation *)

Lemma radians_180 : radians 180 = PI.
Proof. unfold radians; field. Qed.

Lemma elevation_0 (t s : R) :
  elevation t 0 s = degrees (atan (tan (radians t))).
Proof. rewrite elevation_eq. do 2 f_equal. ring. Qed.

Lemma elevation_continuous_at_0 (t s : R) :
  tends_to_at_0 (fun x => elevation t x s) (elevation t 0 s).
Proof.
  set (a := tan (radians t)).
  set (b := 2 * (- g / 2 / (s * cos (radians t)) ^ 2)).
  assert (Hc : continuity_pt (fun x => degrees (atan (a + b * x))) 0).
  { unfold degrees.
    apply derivable_continuous_pt.
    assert (Hlin : derivable_pt (fun x => a + b * x) 0) by reg.
    pose proof (derivable_pt_comp (fun x => a + b * x) atan 0 Hlin
                  (derivable_pt_atan _)) as Hcomp.
    apply (derivable_pt_div _ (fun _ => PI)).
    - apply (derivable_pt_mult _ (fun _ => 180)).
      + exact Hcomp.
      + apply derivable_pt_const.
    - apply derivable_pt_const.
    - apply PI_neq0. }
  intros eps Heps.
  destruct (Hc eps Heps) as (delta & Hdelta & Hlim).
  exists delta; split; [exact Hdelta |].
  intros x Hx.
  rewrite !elevation_eq. fold a b.
  destruct (Req_dec x 0) as [-> | Hx0].
  - unfold Rminus; rewrite Rplus_opp_r, Rabs_R0; exact Heps.
  - apply (Hlim x). split.
    + split; [exact I | intro E; apply Hx0; symmetry; exact E].
    + simpl; unfold R_dist. replace (x - 0) with x by ring. exact Hx.
Qed.

(** C6, as stated, fails: launched at 180 degrees the elevation at the
    origin is 0, since the plain arctangent only returns angles strictly
    between -90 and 90 degrees. *)
Lemma elevation_at_origin_180 :
  elevation 180 0 500 = 0 /\ ~ elevation_at_origin_as_stated.
Proof.
  assert (E : elevation 180 0 500 = 0).
  { rewrite elevation_0, radians_180, tan_PI, atan_0.
    unfold degrees, Rdiv; ring. }
  split; [exact E |].
  intros H. specialize (H 180 500). rewrite E in H. lra.
Qed.

(** C6, amended: for every initial trajectory strictly between -90 and 90
    degrees and every speed other than zero, the elevation at flight length
    0 is the initial trajectory, and the elevation tends to it as the flight
    length tends to 0. *)
Theorem elevation_at_origin (initial_trajectory speed : R) :
  speed <> 0 ->
  -90 < initial_trajectory < 90 ->
  elevation initial_trajectory 0 speed = initial_trajectory
  /\ tends_to_at_0 (fun flight_length =>
                      elevation initial_trajectory flight_length speed)
                   initial_trajectory.
Proof.
  intros _ Ht.
  assert (E : elevation initial_trajectory 0 speed = initial_trajectory).
  { rewrite elevation_0, atan_tan; [apply degrees_radians |].
    unfold radians. pose proof PI_RGT_0. split; nra. }
  split; [exact E |].
  pose proof (elevation_continuous_at_0 initial_trajectory speed) as Hc.
  rewrite E in Hc. exact Hc.
Qed.

Lemma elevation_at_origin_witness :
  500 <> 0 /\ -90 < 3 < 90 /\ elevation 3 0 500 = 3.
Proof.
  split; [lra |]. split; [lra |].
  apply (elevation_at_origin 3 500); lra.
Defined.

(** C7: for every speed and initial trajectory of a well-defined parabola
    (speed * cos(radians(initial_trajectory)) not zero, so for every speed
    other than zero on any range of positive trajectories below 90 degrees),
    the elevation does not increase with the flight length. *)
Theorem elevation_non_increasing
    (initial_trajectory speed flight_length1 flight_length2 : R) :
  speed * cos (radians initial_trajectory) <> 0 ->
  flight_length1 <= flight_length2 ->
  elevation initial_trajectory flight_length2 speed
  <= elevation initial_trajectory flight_length1 speed.
Proof.
  intros Hs H. rewrite !elevation_eq.
  apply degrees_le, atan_le.
  pose proof (quadratic_coefficient_neg initial_trajectory speed Hs).
  nra.
Qed.

Lemma elevation_non_increasing_witness :
  1 <= 2 /\ elevation 0 2 500 <= elevation 0 1 500.
Proof.
  split; [lra |].
  apply (elevation_non_increasing 0 500 1 2); [| lra].
  apply cos_radians_0; lra.
Defined.

(** ** Roots of the quadratic *)

Section Quadratic.

Variables k0 k1 k2 : R.
Hypothesis k2_nonzero : k2 <> 0.

Lemma disc_of_root (x : R) :
  k2 * x ^ 2 + k1 * x + k0 = 0 -> 0 <= discriminant k0 k1 k2.
Proof.
  intros Hx. unfold discriminant.
  replace (k1 ^ 2 - 4 * k2 * k0) with ((2 * k2 * x + k1) ^ 2) by nra.
  apply pow2_ge_0.
Qed.

Lemma factorisation (x : R) :
  0 <= discriminant k0 k1 k2 ->
  k2 * x ^ 2 + k1 * x + k0
  = k2 * (x - root_minus k0 k1 k2) * (x - root_plus k0 k1 k2).
Proof.
  intros Hd. pose proof (sqrt_sqrt _ Hd) as Hs.
  unfold root_minus, root_plus. set (w := sqrt (discriminant k0 k1 k2)) in *.
  assert (E : k0 = (k1 ^ 2 - w * w) / (4 * k2)).
  { rewrite Hs. unfold discriminant. field. exact k2_nonzero. }
  rewrite E at 1. field. exact k2_nonzero.
Qed.

Lemma Rmax_is_max_root :
  0 <= discriminant k0 k1 k2 ->
  max_real_root (fun x => k2 * x ^ 2 + k1 * x + k0)
                (Rmax (root_minus k0 k1 k2) (root_plus k0 k1 k2)).
Proof.
  intros Hd. split.
  - rewrite (factorisation _ Hd).
    unfold Rmax. destruct (Rle_dec _ _); ring.
  - intros x' Hx'. rewrite (factorisation _ Hd) in Hx'.
    apply Rmult_integral in Hx'. destruct Hx' as [Hx' | Hx'].
    + apply Rmult_integral in Hx'. destruct Hx' as [Hx' | Hx'].
      * contradiction.
      * replace x' with (root_minus k0 k1 k2) by lra. apply Rmax_l.
    + replace x' with (root_plus k0 k1 k2) by lra. apply Rmax_r.
Qed.

Lemma max_polyroots_real :
  0 <= discriminant k0 k1 k2 ->
  Numpy.max (Numpy.polyroots k0 k1 k2)
  = Ok (Numpy.Real (Rmax (root_minus k0 k1 k2) (root_plus k0 k1 k2))).
Proof.
  intros Hd. unfold Numpy.polyroots.
  destruct (Req_dec_T k2 0) as [E | _]; [contradiction |].
  cbv zeta. fold (discriminant k0 k1 k2).
  destruct (Rle_dec 0 (discriminant k0 k1 k2)) as [_ | N]; [| contradiction].
  fold (root_minus k0 k1 k2) (root_plus k0 k1 k2).
  simpl. do 2 f_equal.
  unfold Rmax, Rmin.
  destruct (Rle_dec (root_minus k0 k1 k2) (root_plus k0 k1 k2));
    destruct (Rle_dec _ _); lra.
Qed.

Lemma max_polyroots_complex :
  discriminant k0 k1 k2 < 0 ->
  Numpy.max (Numpy.polyroots k0 k1 k2)
  = Ok (Numpy.Complex (- k1 / (2 * k2))
                      (sqrt (- discriminant k0 k1 k2) / (2 * Rabs k2)))
  /\ 0 < sqrt (- discriminant k0 k1 k2) / (2 * Rabs k2).
Proof.
  intros Hd.
  assert (Hb : 0 < sqrt (- discriminant k0 k1 k2) / (2 * Rabs k2)).
  { apply Rdiv_lt_0_compat.
    - apply sqrt_lt_R0; lra.
    - pose proof (Rabs_pos_lt k2 k2_nonzero); lra. }
  split; [| exact Hb].
  unfold Numpy.polyroots.
  destruct (Req_dec_T k2 0) as [E | _]; [contradiction |].
  cbv zeta. fold (discriminant k0 k1 k2).
  destruct (Rle_dec 0 (discriminant k0 k1 k2)) as [P | _]; [lra |].
  set (b := sqrt (- discriminant k0 k1 k2) / (2 * Rabs k2)) in *.
  simpl. unfold Numpy.cmax; simpl.
  destruct (Rlt_dec _ _) as [L | _]; [lra |].
  destruct (Req_dec_T _ _) as [_ | N]; [| contradiction N; reflexivity].
  destruct (Rlt_dec (- b) b) as [_ | N]; [reflexivity | lra].
Qed.

(** The value numpy takes without real roots is a root in the complex
    plane. *)
Lemma complex_root :
  discriminant k0 k1 k2 < 0 ->
  let a := - k1 / (2 * k2) in
  let b := sqrt (- discriminant k0 k1 k2) / (2 * Rabs k2) in
  k2 * (a ^ 2 - b ^ 2) + k1 * a + k0 = 0 /\ k2 * (2 * a * b) + k1 * b = 0.
Proof.
  intros Hd a b.
  assert (Hs : sqrt (- discriminant k0 k1 k2) * sqrt (- discriminant k0 k1 k2)
               = - discriminant k0 k1 k2) by (apply sqrt_sqrt; lra).
  assert (Hb : b ^ 2 = - discriminant k0 k1 k2 / (4 * k2 ^ 2)).
  { unfold b.
    replace ((sqrt (- discriminant k0 k1 k2) / (2 * Rabs k2)) ^ 2)
      with (sqrt (- discriminant k0 k1 k2) * sqrt (- discriminant k0 k1 k2)
            / (4 * (Rabs k2 * Rabs k2))).
    - rewrite Hs. f_equal. f_equal.
      rewrite <- Rabs_mult, Rabs_pos_eq; [ring | nra].
    - field. apply Rabs_no_R0; exact k2_nonzero. }
  split.
  - rewrite Hb. unfold a, discriminant. field. exact k2_nonzero.
  - unfold a. field. exact k2_nonzero.
Qed.

Lemma disc_neg_of_no_root :
  no_real_root (fun x => k2 * x ^ 2 + k1 * x + k0) ->
  discriminant k0 k1 k2 < 0.
Proof.
  intros H.
  destruct (Rlt_dec (discriminant k0 k1 k2) 0) as [L | N];
    [exact L | exfalso].
  assert (Hd : 0 <= discriminant k0 k1 k2) by lra.
  apply (H (root_minus k0 k1 k2)). rewrite (factorisation _ Hd). ring.
Qed.

End Quadratic.

(** ** Intersection of the parabola with a line *)

Lemma quadratic_eq (t s theta L omega x : R) :
  quadratic t s theta L omega x
  = - g / 2 / (s * cos (radians t)) ^ 2 * x ^ 2
    + (tan (radians t) - line_b1 omega) * x
    + (0 - line_a1 theta L omega).
Proof. reflexivity. Qed.

(** The function in terms of the largest root numpy reports. *)
Lemma intersection_point_unfold (t s theta L omega : R) :
  parabola_line_intersection_point t s theta L omega
  = (x <- Numpy.max
            (Numpy.polyroots (0 - line_a1 theta L omega)
                             (tan (radians t) - line_b1 omega)
                             (- g / 2 / (s * cos (radians t)) ^ 2)) ;;
     let y := Numpy.add (Numpy.Real (line_a1 theta L omega))
                        (Numpy.mul x (Numpy.Real (line_b1 omega))) in
     Ok (x, y,
         Numpy.sqrt
           (Numpy.add
              (Numpy.sqr (Numpy.sub x (Numpy.Real L)))
              (Numpy.sqr (Numpy.sub y (Numpy.Real (L * tan (radians theta)))))))).
Proof. reflexivity. Qed.

(** With a float for x, the other two components are floats as well. *)
Lemma real_triple (a1 b1 L T x : R) :
  (let y := Numpy.add (Numpy.Real a1) (Numpy.mul (Numpy.Real x) (Numpy.Real b1)) in
   Ok (Numpy.Real x, y,
       Numpy.sqrt (Numpy.add (Numpy.sqr (Numpy.sub (Numpy.Real x) (Numpy.Real L)))
                             (Numpy.sqr (Numpy.sub y (Numpy.Real T))))))
  = (let y := a1 + b1 * x in
     Ok (Numpy.Real x, Numpy.Real y,
         Numpy.Real (sqrt ((x - L) ^ 2 + (y - T) ^ 2)))).
Proof.
  cbv zeta.
  unfold Numpy.add, Numpy.mul, Numpy.sqr, Numpy.sub, Numpy.sqrt, Numpy.mul.
  replace (a1 + x * b1) with (a1 + b1 * x) by ring.
  replace ((x - L) * (x - L)) with ((x - L) ^ 2) by ring.
  replace ((a1 + b1 * x - T) * (a1 + b1 * x - T))
    with ((a1 + b1 * x - T) ^ 2) by ring.
  reflexivity.
Qed.

(** C1: when the parabola is well defined (speed and cos of the launch angle
    are not zero) and the quadratic has a real root, the function returns
    floats: x the greatest real root, y = a1 + b1 x on the line, and the
    Euclidean distance from (x, y) to the reference point
    (flight_length, flight_length tan(theta)). *)
Theorem intersection_is_max_real_root
    (initial_trajectory speed theta flight_length omega : R) :
  speed * cos (radians initial_trajectory) <> 0 ->
  has_real_root
    (quadratic initial_trajectory speed theta flight_length omega) ->
  exists x : R,
    max_real_root
      (quadratic initial_trajectory speed theta flight_length omega) x
    /\ parabola_line_intersection_point
         initial_trajectory speed theta flight_length omega
       = let y := line_a1 theta flight_length omega + line_b1 omega * x in
         Ok (Numpy.Real x, Numpy.Real y,
             Numpy.Real
               (sqrt ((x - flight_length) ^ 2
                      + (y - flight_length * tan (radians theta)) ^ 2))).
Proof.
  intros Hs [x0 Hx0].
  pose proof (quadratic_coefficient_neg _ _ Hs) as Hk2.
  set (k2 := - g / 2 / (speed * cos (radians initial_trajectory)) ^ 2) in *.
  set (k1 := tan (radians initial_trajectory) - line_b1 omega).
  set (k0 := 0 - line_a1 theta flight_length omega).
  assert (Hk : k2 <> 0) by lra.
  assert (Hd : 0 <= discriminant k0 k1 k2).
  { apply (disc_of_root k0 k1 k2 Hk x0). rewrite quadratic_eq in Hx0. exact Hx0. }
  eexists. split.
  - exact (Rmax_is_max_root k0 k1 k2 Hk Hd).
  - rewrite intersection_point_unfold. fold k0 k1 k2.
    rewrite (max_polyroots_real k0 k1 k2 Hk Hd).
    apply real_triple.
Qed.

Lemma intersection_is_max_real_root_witness :
  exists x : R,
    max_real_root (quadratic 0 1 0 0 45) x
    /\ parabola_line_intersection_point 0 1 0 0 45
       = let y := line_a1 0 0 45 + line_b1 45 * x in
         Ok (Numpy.Real x, Numpy.Real y,
             Numpy.Real (sqrt ((x - 0) ^ 2 + (y - 0 * tan (radians 0)) ^ 2))).
Proof.
  apply (intersection_is_max_real_root 0 1 0 0 45).
  - apply cos_radians_0; lra.
  - exists 0. rewrite quadratic_eq. unfold line_a1. ring.
Defined.

(** C9: for every speed other than zero and every flight length, a
    horizontal launch against the horizontal line through the origin
    (theta = 0, omega = 0) meets it at x = 0, y = 0; the distance to the
    reference point is the magnitude of the flight length. *)
Theorem intersection_horizontal (speed flight_length : R) :
  speed <> 0 ->
  parabola_line_intersection_point 0 speed 0 flight_length 0
  = Ok (Numpy.Real 0, Numpy.Real 0, Numpy.Real (Rabs flight_length)).
Proof.
  intros Hs.
  pose proof (quadratic_coefficient_neg 0 speed (cos_radians_0 _ Hs)) as Hk2.
  rewrite intersection_point_unfold.
  set (k2 := - g / 2 / (speed * cos (radians 0)) ^ 2) in *.
  assert (Hk : k2 <> 0) by lra.
  assert (Ha : line_a1 0 flight_length 0 = 0) by (unfold line_a1; ring).
  assert (Hb : line_b1 0 = 0) by (unfold line_b1; rewrite radians_0; apply tan_0).
  rewrite Ha, Hb, radians_0, tan_0.
  replace (0 - 0) with 0 by ring.
  assert (Hd : 0 <= discriminant 0 0 k2) by (unfold discriminant; lra).
  rewrite (max_polyroots_real 0 0 k2 Hk Hd).
  unfold root_minus, root_plus.
  replace (discriminant 0 0 k2) with 0 by (unfold discriminant; ring).
  rewrite sqrt_0.
  replace ((- 0 - 0) / (2 * k2)) with 0 by (field; exact Hk).
  replace ((- 0 + 0) / (2 * k2)) with 0 by (field; exact Hk).
  rewrite (Rmax_left 0 0) by lra.
  unfold bind. rewrite real_triple. cbv zeta.
  replace (0 + 0 * 0) with 0 by ring.
  do 3 f_equal.
  replace ((0 - flight_length) ^ 2 + (0 - flight_length * 0) ^ 2)
    with (flight_length²) by (unfold Rsqr; ring).
  apply sqrt_Rsqr_abs.
Qed.

Lemma intersection_horizontal_witness :
  parabola_line_intersection_point 0 500 0 2 0
  = Ok (Numpy.Real 0, Numpy.Real 0, Numpy.Real (Rabs 2)).
Proof. apply (intersection_horizontal 500 2); lra. Defined.

(** A horizontal launch at 1 m/s never reaches the horizontal line one
    metre above the origin. *)
Lemma no_real_root_example : no_real_root (quadratic 0 1 45 1 0).
Proof.
  assert (Hq : forall x, quadratic 0 1 45 1 0 x = - g / 2 * x ^ 2 - 1).
  { intros x. rewrite quadratic_eq. unfold line_a1, line_b1.
    rewrite radians_0, tan_0, cos_0.
    replace (radians 45) with (PI / 4) by (unfold radians; field).
    rewrite tan_PI4. field. }
  intros x. rewrite Hq. unfold g. nra.
Qed.

(** What the code computes when the parabola is well defined and the
    quadratic has no real root: nothing is raised, and the tuple is made of
    complex numbers, from the root a + b i with positive imaginary part. *)
Lemma complex_tuple_without_real_root
    (initial_trajectory speed theta flight_length omega : R) :
  speed * cos (radians initial_trajectory) <> 0 ->
  no_real_root
    (quadratic initial_trajectory speed theta flight_length omega) ->
  exists a b : R,
    0 < b
    /\ (let k2 := nth 2 (parabola_eqn initial_trajectory speed) 0 in
        let k1 := nth 1 (parabola_eqn initial_trajectory speed) 0
                  - line_b1 omega in
        let k0 := nth 0 (parabola_eqn initial_trajectory speed) 0
                  - line_a1 theta flight_length omega in
        k2 * (a ^ 2 - b ^ 2) + k1 * a + k0 = 0
        /\ k2 * (2 * a * b) + k1 * b = 0)
    /\ parabola_line_intersection_point
         initial_trajectory speed theta flight_length omega
       = let x := Numpy.Complex a b in
         let y := Numpy.Complex (line_a1 theta flight_length omega
                                 + line_b1 omega * a)
                                (line_b1 omega * b) in
         Ok (x, y,
             Numpy.sqrt
               (Numpy.add
                  (Numpy.sqr (Numpy.sub x (Numpy.Real flight_length)))
                  (Numpy.sqr
                     (Numpy.sub y (Numpy.Real (flight_length
                                               * tan (radians theta))))))).
Proof.
  intros Hs Hn.
  pose proof (quadratic_coefficient_neg _ _ Hs) as Hk2.
  rewrite intersection_point_unfold.
  change (nth 2 (parabola_eqn initial_trajectory speed) 0)
    with (- g / 2 / (speed * cos (radians initial_trajectory)) ^ 2).
  change (nth 1 (parabola_eqn initial_trajectory speed) 0)
    with (tan (radians initial_trajectory)).
  change (nth 0 (parabola_eqn initial_trajectory speed) 0) with 0.
  set (k2 := - g / 2 / (speed * cos (radians initial_trajectory)) ^ 2) in *.
  set (k1 := tan (radians initial_trajectory) - line_b1 omega).
  set (k0 := 0 - line_a1 theta flight_length omega).
  assert (Hk : k2 <> 0) by lra.
  assert (Hd : discriminant k0 k1 k2 < 0).
  { apply (disc_neg_of_no_root k0 k1 k2 Hk).
    intros x. pose proof (Hn x) as Hx. rewrite quadratic_eq in Hx. exact Hx. }
  destruct (max_polyroots_complex k0 k1 k2 Hk Hd) as [E Hb].
  exists (- k1 / (2 * k2)), (sqrt (- discriminant k0 k1 k2) / (2 * Rabs k2)).
  split; [exact Hb |]. split.
  - exact (complex_root k0 k1 k2 Hk Hd).
  - rewrite E. unfold bind. cbv zeta.
    set (a := - k1 / (2 * k2)).
    set (b := sqrt (- discriminant k0 k1 k2) / (2 * Rabs k2)).
    replace (Numpy.add (Numpy.Real (line_a1 theta flight_length omega))
               (Numpy.mul (Numpy.Complex a b) (Numpy.Real (line_b1 omega))))
      with (Numpy.Complex (line_a1 theta flight_length omega + line_b1 omega * a)
              (line_b1 omega * b)).
    + reflexivity.
    + unfold Numpy.add, Numpy.mul; simpl. f_equal; ring.
Qed.

(** C2: the code at (0, 1, 45, 1, 0), a horizontal launch at 1 m/s against
    the horizontal line one metre up.  The quadratic has no real root, yet
    the function raises no error: it returns a tuple whose three components
    are complex numbers, x with a positive imaginary part, where its
    docstring promises floats and the specification an error. *)
Theorem no_intersection_no_error :
  no_real_root (quadratic 0 1 45 1 0)
  /\ ~ is_raise (parabola_line_intersection_point 0 1 45 1 0)
  /\ exists b dr di : R,
       0 < b
       /\ parabola_line_intersection_point 0 1 45 1 0
          = Ok (Numpy.Complex 0 b, Numpy.Complex 1 0, Numpy.Complex dr di).
Proof.
  pose proof no_real_root_example as Hn.
  assert (Hs : 1 * cos (radians 0) <> 0) by (apply cos_radians_0; lra).
  destruct (complex_tuple_without_real_root 0 1 45 1 0 Hs Hn)
    as (a & b & Hb & [_ Him] & E).
  cbv zeta in Him, E.
  assert (Hb1 : line_b1 0 = 0).
  { unfold line_b1. rewrite radians_0. apply tan_0. }
  assert (Ha1 : line_a1 45 1 0 = 1).
  { unfold line_a1. rewrite radians_0, tan_0.
    replace (radians 45) with (PI / 4) by (unfold radians; field).
    rewrite tan_PI4. ring. }
  assert (Ha : a = 0).
  { pose proof (quadratic_coefficient_neg 0 1 Hs) as Hk2.
    change (nth 2 (parabola_eqn 0 1) 0)
      with (- g / 2 / (1 * cos (radians 0)) ^ 2) in Him.
    change (nth 1 (parabola_eqn 0 1) 0) with (tan (radians 0)) in Him.
    rewrite Hb1, radians_0, tan_0 in Him. rewrite radians_0 in Hk2.
    set (k2 := - g / 2 / (1 * cos 0) ^ 2) in *.
    assert (k2 * a * b = 0) by lra.
    apply Rmult_integral in H. destruct H as [H | H]; [| lra].
    apply Rmult_integral in H. destruct H as [H | H]; [lra | exact H]. }
  rewrite Ha, Ha1, Hb1 in E.
  replace (1 + 0 * 0) with 1 in E by ring.
  replace (0 * b) with 0 in E by ring.
  split; [exact Hn |]. split.
  - rewrite E. intros H; exact H.
  - exists b. eexists. eexists. split; [exact Hb |].
    rewrite E. unfold Numpy.sub, Numpy.sqr, Numpy.mul, Numpy.add, Numpy.sqrt.
    cbn [Numpy.re Numpy.im]. reflexivity.
Qed.

(** ** The sign of the speed *)

(** C10: the speed enters the coefficients only squared, so [parabola_eqn],
    [y_deflection], [elevation] and [parabola_line_intersection_point]
    return for speed -s exactly what they return for speed s, for every s
    (the nonzero ones among them); no function rejects a negative speed. *)
Theorem speed_sign_invariance
    (initial_trajectory flight_length s theta omega : R) :
  parabola_eqn initial_trajectory (- s) = parabola_eqn initial_trajectory s
  /\ y_deflection initial_trajectory flight_length (- s)
     = y_deflection initial_trajectory flight_length s
  /\ elevation initial_trajectory flight_length (- s)
     = elevation initial_trajectory flight_length s
  /\ parabola_line_intersection_point
       initial_trajectory (- s) theta flight_length omega
     = parabola_line_intersection_point
         initial_trajectory s theta flight_length omega.
Proof.
  pose proof (parabola_eqn_speed_sign initial_trajectory s) as E.
  repeat split.
  - exact E.
  - unfold y_deflection; rewrite E; reflexivity.
  - unfold elevation; rewrite E; reflexivity.
  - unfold parabola_line_intersection_point; rewrite E; reflexivity.
Qed.

(** ** The inverse solve *)

Lemma secant_S (f : R -> R) (n : nat) (p0 q0 p1 q1 : R) :
  Scipy.secant f (S n) p0 q0 p1 q1
  = if Req_dec_T q1 q0 then
      if Req_dec_T p1 p0 then Ok ((p1 + p0) / 2) else Raise RuntimeError
    else
      if Scipy.isclose (Scipy.secant_step p0 q0 p1 q1) p1
      then Ok (Scipy.secant_step p0 q0 p1 q1)
      else Scipy.secant f n p1 q1 (Scipy.secant_step p0 q0 p1 q1)
                        (f (Scipy.secant_step p0 q0 p1 q1)).
Proof. reflexivity. Qed.

(** Along a flight of length zero every trajectory has residual zero. *)
Lemma traj_flight_length_0 (theta s t : R) : traj theta 0 s t = 0.
Proof. unfold traj; rewrite y_deflection_eq; ring. Qed.

(** The secant method then stops at once: two different abscissas with the
    same ordinate. *)
Lemma newton_flight_length_0 (theta s : R) :
  Scipy.newton (traj theta 0 s) 0 = Raise RuntimeError.
Proof.
  unfold Scipy.newton. cbv zeta. rewrite !traj_flight_length_0.
  destruct (Rlt_dec (Rabs 0) (Rabs 0)) as [H | _]; [lra |].
  change Scipy.maxiter with (S 49). rewrite secant_S.
  destruct (Req_dec_T 0 0) as [_ | N]; [| contradiction N; reflexivity].
  destruct (Rle_dec 0 (0 * (1 + Scipy.eps))) as [_ | N]; [| lra].
  destruct (Req_dec_T _ _) as [E | _]; [| reflexivity].
  unfold Scipy.eps in E. lra.
Qed.

Lemma secant_ok (f : R -> R) (n : nat) :
  forall (p0 q0 p1 q1 p : R),
    Scipy.secant f n p0 q0 p1 q1 = Ok p ->
    exists k : nat,
      (k < n)%nat
      /\ Scipy.stops_with (Scipy.iterate f k (p0, q0, p1, q1)) p.
Proof.
  induction n as [| n IH]; intros p0 q0 p1 q1 p; [discriminate |].
  rewrite secant_S.
  destruct (Req_dec_T q1 q0) as [Eq | Nq].
  - destruct (Req_dec_T p1 p0) as [Ep | Np]; [| discriminate].
    intros [= <-]. exists 0%nat. split; [lia |].
    simpl. left. repeat split; assumption.
  - destruct (Scipy.isclose _ p1) as [Hc | Hf].
    + intros [= <-]. exists 0%nat. split; [lia |].
      simpl. right. repeat split; [assumption |].
      unfold Scipy.tol in *. lra.
    + intros H. destruct (IH _ _ _ _ _ H) as (k & Hk & Hstop).
      exists (S k). split; [lia | exact Hstop].
Qed.

Lemma secant_raises (f : R -> R) (n : nat) :
  forall (p0 q0 p1 q1 : R) (e : exn),
    Scipy.secant f n p0 q0 p1 q1 = Raise e -> e = RuntimeError.
Proof.
  induction n as [| n IH]; intros p0 q0 p1 q1 e.
  - intros [= <-]. reflexivity.
  - rewrite secant_S.
    destruct (Req_dec_T q1 q0) as [Eq | Nq].
    + destruct (Req_dec_T p1 p0); [discriminate | intros [= <-]; reflexivity].
    + destruct (Scipy.isclose _ p1); [discriminate | apply IH].
Qed.

Lemma newton_secant (f : R -> R) (x0 : R) :
  Scipy.newton f x0
  = let '(p0, q0, p1, q1) := Scipy.start f x0 in
    Scipy.secant f Scipy.maxiter p0 q0 p1 q1.
Proof.
  unfold Scipy.newton, Scipy.start. cbv zeta.
  destruct (Rlt_dec _ _); reflexivity.
Qed.

(** The root finder returns a value only when its stopping test passed
    within the budget, and the one error it raises is [RuntimeError]. *)
Lemma newton_ok (f : R -> R) (x0 p : R) :
  Scipy.newton f x0 = Ok p -> Scipy.converges f x0 p.
Proof.
  rewrite newton_secant. unfold Scipy.converges.
  destruct (Scipy.start f x0) as [[[p0 q0] p1] q1].
  apply secant_ok.
Qed.

Lemma newton_raises (f : R -> R) (x0 : R) (e : exn) :
  Scipy.newton f x0 = Raise e -> e = RuntimeError.
Proof.
  rewrite newton_secant.
  destruct (Scipy.start f x0) as [[[p0 q0] p1] q1].
  apply secant_raises.
Qed.

(** C8: whatever root finder [find_trajectory] is run with, an error the
    finder raises on the residual, started at trajectory 0, is the error
    [find_trajectory] raises, and [find_trajectory] returns a value only when
    the finder returned that very value: nothing is caught, replaced or
    returned in place of a failure.  Run with the secant method of
    scipy.optimize.newton, it returns a value only when the stopping test
    passed within the 50 iterations, and where no iteration passes it,
    it raises the RuntimeError of a failed convergence. *)
Theorem find_trajectory_propagates (theta flight_length speed : R) :
  (forall (newton : (R -> R) -> R -> result R) (e : exn),
      newton (traj theta flight_length speed) 0 = Raise e ->
      find_trajectory newton theta flight_length speed = Raise e)
  /\ (forall (newton : (R -> R) -> R -> result R) (p : R),
         find_trajectory newton theta flight_length speed = Ok p ->
         newton (traj theta flight_length speed) 0 = Ok p)
  /\ (forall p : R,
         find_trajectory Scipy.newton theta flight_length speed = Ok p ->
         Scipy.converges (traj theta flight_length speed) 0 p)
  /\ ((forall p : R, ~ Scipy.converges (traj theta flight_length speed) 0 p) ->
      find_trajectory Scipy.newton theta flight_length speed
      = Raise RuntimeError).
Proof.
  assert (Hval : forall (newton : (R -> R) -> R -> result R) (p : R),
             find_trajectory newton theta flight_length speed = Ok p ->
             newton (traj theta flight_length speed) 0 = Ok p).
  { intros newton p. unfold find_trajectory, bind.
    destruct (newton _ 0) as [a | e]; [| discriminate].
    intros H; exact H. }
  split; [| split; [exact Hval | split]].
  - intros newton e. unfold find_trajectory, bind. intros ->. reflexivity.
  - intros p H. apply newton_ok, Hval, H.
  - intros Hno. unfold find_trajectory, bind.
    destruct (Scipy.newton (traj theta flight_length speed) 0) as [p | e] eqn:E.
    + exfalso. apply (Hno p), newton_ok, E.
    + rewrite (newton_raises _ _ _ E). reflexivity.
Qed.

Lemma find_trajectory_propagates_witness :
  find_trajectory Scipy.newton 10 0 500 = Raise RuntimeError.
Proof.
  apply (proj1 (find_trajectory_propagates 10 0 500) Scipy.newton RuntimeError).
  apply newton_flight_length_0.
Defined.

(** ** The round trip through [find_trajectory]

    The secant iteration of [scipy.optimize.newton] contracts towards the
    trajectory sought: on launch angles within 30 degrees of the horizontal
    the residual is (z - u) (L - K L^2 (z + u)) in the slopes z (sought) and
    u (current), and the slope is a function of the angle with derivative
    between pi/180 and 4/3 of it. *)

Lemma tan_sqr_bound (x : R) : - (PI / 6) <= x <= PI / 6 -> tan x ^ 2 <= 1 / 3.
Proof.
  intros [Hl Hu].
  pose proof PI_RGT_0 as Hpi.
  assert (H3 : 0 < sqrt 3) by (apply sqrt_lt_R0; lra).
  assert (Hw : sqrt 3 * sqrt 3 = 3) by (apply sqrt_sqrt; lra).
  set (w := 1 / sqrt 3).
  assert (Hw0 : 0 < w) by (apply Rdiv_lt_0_compat; lra).
  assert (Hww : w * w = 1 / 3).
  { unfold w. field_simplify; [| lra]. rewrite pow2_sqrt by lra. reflexivity. }
  assert (Hup : tan x <= w).
  { unfold w. rewrite <- tan_PI6.
    destruct Hu as [Hu | ->]; [| lra].
    left; apply tan_increasing; lra. }
  assert (Hlo : - w <= tan x).
  { unfold w. rewrite <- tan_PI6, <- tan_neg.
    destruct Hl as [Hl | <-]; [| lra].
    left; apply tan_increasing; lra. }
  nra.
Qed.

Lemma cos_pos_domain (x : R) : - (PI / 6) <= x <= PI / 6 -> 0 < cos x.
Proof.
  intros [Hl Hu]. pose proof PI_RGT_0. apply cos_gt_0; lra.
Qed.

Lemma inv_cos_sqr (x : R) : cos x <> 0 -> / cos x ^ 2 = 1 + tan x ^ 2.
Proof.
  intros Hc. unfold tan.
  pose proof (sin2_cos2 x) as H. unfold Rsqr in H.
  replace (/ cos x ^ 2) with ((sin x * sin x + cos x * cos x) / cos x ^ 2)
    by (rewrite H; unfold Rdiv; ring).
  field. exact Hc.
Qed.

Lemma derivable_pt_lim_tan (x : R) :
  - PI / 2 < x < PI / 2 -> derivable_pt_lim tan x (1 + tan x ^ 2).
Proof.
  intros Hx. rewrite <- (derive_pt_tan x Hx).
  apply derive_pt_eq_1 with (pr := derivable_pt_tan x Hx). reflexivity.
Qed.

(** A difference of tangents is the difference of the angles times a factor
    between 1 and 4/3. *)
Lemma tan_difference (a b : R) :
  - (PI / 6) <= a <= PI / 6 -> - (PI / 6) <= b <= PI / 6 ->
  exists S : R, 1 <= S <= 4 / 3 /\ tan b - tan a = S * (b - a).
Proof.
  pose proof PI_RGT_0 as Hpi.
  assert (Hlt : forall a b, - (PI / 6) <= a -> b <= PI / 6 -> a < b ->
                exists S : R, 1 <= S <= 4 / 3 /\ tan b - tan a = S * (b - a)).
  { clear a b. intros a b Ha Hb Hab.
    assert (Hd : forall c, a <= c <= b ->
                 derivable_pt_lim tan c ((fun c => 1 + tan c ^ 2) c)).
    { intros c Hc. apply derivable_pt_lim_tan. lra. }
    destruct (MVT_cor2 tan _ a b Hab Hd) as (c & Hc & Hin).
    exists (1 + tan c ^ 2). split; [| exact Hc].
    assert (Hc6 : - (PI / 6) <= c <= PI / 6) by lra.
    pose proof (tan_sqr_bound c Hc6). pose proof (pow2_ge_0 (tan c)). lra. }
  intros Ha Hb.
  destruct (Rtotal_order a b) as [H | [H | H]].
  - apply Hlt; lra.
  - exists 1. subst b. split; lra.
  - destruct (Hlt b a) as (S & HS & E); try lra.
    exists S. split; [exact HS | lra].
Qed.

Lemma radians_degrees (x : R) : radians (degrees x) = x.
Proof. unfold degrees, radians; field. apply PI_neq0. Qed.

Lemma radians_domain (t : R) :
  -30 <= t <= 30 -> - (PI / 6) <= radians t <= PI / 6.
Proof. intros H. unfold radians. pose proof PI_RGT_0. split; nra. Qed.

Lemma slope_sqr_bound (t : R) : -30 <= t <= 30 -> slope t ^ 2 <= 1 / 3.
Proof. intros H. apply tan_sqr_bound, radians_domain, H. Qed.

Lemma slope_abs_bound (t : R) : -30 <= t <= 30 -> - (3 / 5) <= slope t <= 3 / 5.
Proof.
  intros H. pose proof (slope_sqr_bound t H).
  split; apply Rnot_lt_le; intro; nra.
Qed.

Lemma slope_difference (p q : R) :
  -30 <= p <= 30 -> -30 <= q <= 30 ->
  exists S : R, 1 <= S <= 4 / 3 /\ slope p - slope q = S * (PI / 180) * (p - q).
Proof.
  intros Hp Hq.
  destruct (tan_difference (radians q) (radians p)
              (radians_domain q Hq) (radians_domain p Hp)) as (S & HS & E).
  exists S. split; [exact HS |].
  unfold slope. rewrite E. unfold radians. field.
Qed.

Lemma y_deflection_slope (t L s : R) :
  -30 <= t <= 30 ->
  y_deflection t L s = slope t * L - drop s * L ^ 2 * (1 + slope t ^ 2).
Proof.
  intros Ht. rewrite y_deflection_eq. unfold slope, drop.
  pose proof (cos_pos_domain _ (radians_domain t Ht)) as Hc.
  rewrite <- (inv_cos_sqr (radians t)) by lra.
  unfold Rdiv. rewrite Rpow_mult_distr, !Rinv_mult. ring.
Qed.

(** The residual handed to the root finder on the round trip. *)
Lemma traj_round_trip (t0 L s t : R) :
  L <> 0 ->
  traj (direction_of t0 L s) L s t = y_deflection t0 L s - y_deflection t L s.
Proof.
  intros HL. unfold traj, direction_of. cbv zeta.
  rewrite radians_degrees, tan_atan. field. exact HL.
Qed.

Lemma traj_factored (t0 L s t : R) :
  L <> 0 -> -30 <= t0 <= 30 -> -30 <= t <= 30 ->
  traj (direction_of t0 L s) L s t
  = (slope t0 - slope t) * (L - drop s * L ^ 2 * (slope t0 + slope t)).
Proof.
  intros HL Ht0 Ht.
  rewrite traj_round_trip by exact HL.
  rewrite !y_deflection_slope by assumption. ring.
Qed.

(** The trajectory sought is a zero of the residual. *)
Lemma traj_zero (t0 L s : R) :
  L <> 0 -> traj (direction_of t0 L s) L s t0 = 0.
Proof. intros HL. rewrite traj_round_trip by exact HL. ring. Qed.

(** Both branches of the update compute the secant through the last two
    points. *)
Lemma secant_step_eq (p0 q0 p1 q1 : R) :
  q1 <> q0 ->
  Scipy.secant_step p0 q0 p1 q1 = p1 - q1 * (p1 - p0) / (q1 - q0).
Proof.
  intros Hq. unfold Scipy.secant_step.
  destruct (Rlt_dec (Rabs q0) (Rabs q1)) as [Hlt | Hge].
  - assert (q1 <> 0).
    { intros ->. rewrite Rabs_R0 in Hlt. pose proof (Rabs_pos q0). lra. }
    field. repeat split; try assumption; intro; apply Hq; lra.
  - assert (q0 <> 0).
    { intros ->. rewrite Rabs_R0 in Hge. apply Hq.
      destruct (Req_dec q1 0) as [E | N]; [exact E |].
      pose proof (Rabs_pos_lt q1 N). lra. }
    field. repeat split; try assumption; intro; apply Hq; lra.
Qed.

Section RoundTrip.

Variables trajectory0 flight_length speed : R.
Hypothesis speed_range : 100 <= speed <= 1000.
Hypothesis length_range : 1 / 10 <= flight_length <= 10.
Hypothesis trajectory_range : -5 <= trajectory0 <= 5.

Lemma drop_bound :
  0 < drop speed * flight_length <= 1 / 200.
Proof.
  unfold drop, g.
  assert (Hs : 10000 <= speed ^ 2) by nra.
  assert (Hi : 0 < / (2 * speed ^ 2) <= / 20000).
  { split.
    - apply Rinv_0_lt_compat; lra.
    - apply Rinv_le_contravar; lra. }
  unfold Rdiv. split; nra.
Qed.

(** The second factor of the residual stays within 0.6 percent of the flight
    length. *)
Lemma factor_bound (u v : R) :
  - (3 / 5) <= u <= 3 / 5 -> - (3 / 5) <= v <= 3 / 5 ->
  497 / 500 * flight_length
  <= flight_length - drop speed * flight_length ^ 2 * (u + v)
  <= 503 / 500 * flight_length.
Proof.
  intros Hu Hv. pose proof drop_bound as [Hk0 Hk].
  set (k := drop speed * flight_length) in *.
  replace (flight_length - drop speed * flight_length ^ 2 * (u + v))
    with (flight_length * (1 - k * (u + v))) by (unfold k; ring).
  assert (- (3 / 500) <= k * (u + v) <= 3 / 500) by (split; nra).
  split; nra.
Qed.

Lemma residual_factored (t : R) :
  -30 <= t <= 30 ->
  residual trajectory0 flight_length speed t
  = (slope trajectory0 - slope t)
    * (flight_length
       - drop speed * flight_length ^ 2 * (slope trajectory0 + slope t)).
Proof.
  intros Ht. unfold residual. apply traj_factored; lra.
Qed.

(** One secant step brings the iterate at least 2.5 times closer to the
    trajectory sought. *)
Lemma secant_step_contracts (p0 p1 : R) :
  -30 <= p0 <= 30 -> -30 <= p1 <= 30 -> p0 <> p1 ->
  let f := residual trajectory0 flight_length speed in
  f p1 <> f p0
  /\ Rabs (Scipy.secant_step p0 (f p0) p1 (f p1) - trajectory0)
     <= 2 / 5 * Rabs (p1 - trajectory0).
Proof.
  intros Hp0 Hp1 Hne f.
  assert (Ht0 : -30 <= trajectory0 <= 30) by lra.
  pose proof PI_RGT_0 as Hpi.
  set (r := PI / 180). assert (Hr : 0 < r) by (unfold r; lra).
  set (z := slope trajectory0). set (u0 := slope p0). set (u1 := slope p1).
  pose proof (slope_abs_bound _ Ht0) as Hz. fold z in Hz.
  pose proof (slope_abs_bound _ Hp0) as Hu0. fold u0 in Hu0.
  pose proof (slope_abs_bound _ Hp1) as Hu1. fold u1 in Hu1.
  destruct (slope_difference p1 trajectory0 Hp1 Ht0) as (S1 & HS1 & E1).
  destruct (slope_difference p1 p0 Hp1 Hp0) as (S2 & HS2 & E2).
  fold z u1 r in E1. fold u0 u1 r in E2.
  set (D1 := flight_length - drop speed * flight_length ^ 2 * (z + u1)).
  set (D2 := flight_length - drop speed * flight_length ^ 2 * (u0 + u1)).
  pose proof (factor_bound z u1 Hz Hu1) as HD1. fold D1 in HD1.
  pose proof (factor_bound u0 u1 Hu0 Hu1) as HD2. fold D2 in HD2.
  assert (Hq1 : f p1 = - (S1 * r * (p1 - trajectory0)) * D1).
  { unfold f. rewrite residual_factored by exact Hp1. fold z u1 D1.
    replace (z - u1) with (- (u1 - z)) by ring. rewrite E1. reflexivity. }
  assert (Hq10 : f p1 - f p0 = - (S2 * r * (p1 - p0)) * D2).
  { unfold f. rewrite !residual_factored by assumption. fold z u0 u1.
    unfold D2. rewrite <- E2. ring. }
  assert (HL : 0 < flight_length) by lra.
  assert (HX : 497 / 500 * flight_length <= S1 * D1
               <= 4 / 3 * (503 / 500) * flight_length) by (split; nra).
  assert (HY : 497 / 500 * flight_length <= S2 * D2
               <= 4 / 3 * (503 / 500) * flight_length) by (split; nra).
  assert (Hden : f p1 - f p0 <> 0).
  { rewrite Hq10.
    assert (p1 - p0 <> 0) by lra.
    assert (0 < S2 * D2) by lra.
    replace (- (S2 * r * (p1 - p0)) * D2)
      with (- (r * (S2 * D2)) * (p1 - p0)) by ring.
    apply Rmult_integral_contrapositive_currified; [| assumption].
    assert (0 < r * (S2 * D2)) by (apply Rmult_lt_0_compat; lra). lra. }
  split; [lra |].
  rewrite secant_step_eq by lra.
  assert (Hstep : p1 - f p1 * (p1 - p0) / (f p1 - f p0) - trajectory0
                  = (p1 - trajectory0) * ((S2 * D2 - S1 * D1) / (S2 * D2))).
  { rewrite Hq10, Hq1. field.
    repeat split; lra. }
  rewrite Hstep, Rabs_mult, Rmult_comm.
  apply Rmult_le_compat_r; [apply Rabs_pos |].
  assert (HY0 : 0 < S2 * D2) by lra.
  apply Rabs_le. split.
  - apply Rmult_le_reg_r with (S2 * D2); [exact HY0 |].
    unfold Rdiv. rewrite Rmult_assoc, Rinv_l by lra. lra.
  - apply Rmult_le_reg_r with (S2 * D2); [exact HY0 |].
    unfold Rdiv. rewrite Rmult_assoc, Rinv_l by lra. lra.
Qed.

(** The loop: started from two different angles within 30 degrees of the
    horizontal, the second within [E] of the trajectory sought, and with
    one iteration more than the contraction needs to bring the step under
    the tolerance, the secant method returns, within two thirds of the
    tolerance of the trajectory sought. *)
Lemma secant_converges (n : nat) :
  forall p0 p1 E : R,
    -30 <= p0 <= 30 -> -30 <= p1 <= 30 -> p0 <> p1 ->
    Rabs (p1 - trajectory0) <= E -> E <= 20 ->
    E * (7 / 5) * (2 / 5) ^ n <= Scipy.tol ->
    let f := residual trajectory0 flight_length speed in
    exists p : R,
      Scipy.secant f (S n) p0 (f p0) p1 (f p1) = Ok p
      /\ Rabs (p - trajectory0) <= 2 / 3 * Scipy.tol.
Proof.
  induction n as [| n IH]; intros p0 p1 E Hp0 Hp1 Hne HE HE20 Hfuel f;
    destruct (secant_step_contracts p0 p1 Hp0 Hp1 Hne) as [Hq Hstep];
    fold f in Hq, Hstep;
    rewrite secant_S;
    (destruct (Req_dec_T (f p1) (f p0)) as [Eq | _]; [contradiction |]);
    set (p := Scipy.secant_step p0 (f p0) p1 (f p1)) in *;
    pose proof (Rabs_triang (p - trajectory0) (- (p1 - trajectory0))) as Htri;
    rewrite Rabs_Ropp in Htri;
    replace (p - trajectory0 + - (p1 - trajectory0)) with (p - p1) in Htri
      by ring;
    pose proof (Rabs_triang (p1 - p) (p - trajectory0)) as Htri';
    replace (p1 - p + (p - trajectory0)) with (p1 - trajectory0) in Htri'
      by ring;
    rewrite (Rabs_minus_sym p1 p) in Htri';
    (destruct (Scipy.isclose p p1) as [Hclose | Hfar];
     [exists p; split; [reflexivity | lra] |]).
  - exfalso. apply Hfar. simpl in Hfuel. lra.
  - assert (Hp : -30 <= p <= 30).
    { assert (Rabs (p - trajectory0) <= 8) by lra.
      assert (- 8 <= p - trajectory0 <= 8).
      { revert H. unfold Rabs. destruct (Rcase_abs _); lra. }
      lra. }
    assert (Hne' : p1 <> p).
    { intros Epp. apply Hfar. rewrite <- Epp.
      unfold Rminus. rewrite Rplus_opp_r, Rabs_R0. unfold Scipy.tol.
      pose proof (Rabs_pos p1). lra. }
    apply (IH p1 p (2 / 5 * E)); try assumption; try lra.
    simpl in Hfuel. simpl. lra.
Qed.

End RoundTrip.

(** C4: for speed in [100, 1000] m/s, flight_length in [0.1, 10] m and
    trajectory0 in [-5, 5] degrees, with y = y_deflection(trajectory0,
    flight_length, speed) and theta = arctan(y / flight_length) in degrees,
    find_trajectory(theta, flight_length, speed), run with the secant method
    of scipy.optimize.newton, returns a trajectory within the solver's
    tolerance 1.48e-8 of trajectory0, hence within 1e-6. *)
Theorem find_trajectory_round_trip (trajectory0 flight_length speed : R) :
  100 <= speed <= 1000 ->
  1 / 10 <= flight_length <= 10 ->
  -5 <= trajectory0 <= 5 ->
  let y := y_deflection trajectory0 flight_length speed in
  let theta := degrees (atan (y / flight_length)) in
  exists trajectory : R,
    find_trajectory Scipy.newton theta flight_length speed = Ok trajectory
    /\ Rabs (trajectory - trajectory0) <= Scipy.tol
    /\ Rabs (trajectory - trajectory0) <= 1 / 1000000.
Proof.
  intros Hs HL Ht0 y theta.
  assert (Hfuel : (5 + Scipy.eps) * (7 / 5) * (2 / 5) ^ 49 <= Scipy.tol).
  { unfold Scipy.eps, Scipy.tol. simpl. lra. }
  assert (He : forall x, x = 0 \/ x = Scipy.eps ->
               Rabs (x - trajectory0) <= 5 + Scipy.eps).
  { intros x Hx. apply Rabs_le. unfold Scipy.eps in *. lra. }
  assert (Hd : forall x, x = 0 \/ x = Scipy.eps -> -30 <= x <= 30).
  { intros x Hx. unfold Scipy.eps in *. lra. }
  assert (HE : 5 + Scipy.eps <= 20) by (unfold Scipy.eps; lra).
  assert (Hne : 0 <> Scipy.eps) by (unfold Scipy.eps; lra).
  unfold find_trajectory, theta, y.
  fold (direction_of trajectory0 flight_length speed).
  fold (residual trajectory0 flight_length speed).
  set (f := residual trajectory0 flight_length speed).
  assert (Hnewton : exists p, Scipy.newton f 0 = Ok p
                              /\ Rabs (p - trajectory0) <= 2 / 3 * Scipy.tol).
  { unfold Scipy.newton. cbv zeta.
    destruct (Rle_dec 0 (0 * (1 + Scipy.eps))) as [_ | N]; [| exfalso; lra].
    replace (0 * 1) with 0 by ring.
    replace (0 * (1 + Scipy.eps) + Scipy.eps) with Scipy.eps by ring.
    change Scipy.maxiter with (S 49).
    destruct (Rlt_dec _ _) as [_ | _].
    - apply (secant_converges trajectory0 flight_length speed Hs HL Ht0 49
               Scipy.eps 0 (5 + Scipy.eps)); auto.
    - apply (secant_converges trajectory0 flight_length speed Hs HL Ht0 49
               0 Scipy.eps (5 + Scipy.eps)); auto. }
  destruct Hnewton as (p & Ep & Hp).
  exists p. rewrite Ep. unfold bind.
  split; [reflexivity |]. unfold Scipy.tol in *. split; lra.
Qed.

Lemma find_trajectory_round_trip_witness :
  exists trajectory : R,
    find_trajectory Scipy.newton
      (degrees (atan (y_deflection 0 2 500 / 2))) 2 500 = Ok trajectory
    /\ Rabs (trajectory - 0) <= Scipy.tol
    /\ Rabs (trajectory - 0) <= 1 / 1000000.
Proof. apply (find_trajectory_round_trip 0 2 500); lra. Defined.

(** ** Further properties of the trajectory *)

Lemma g_pos : 0 < g.
Proof. unfold g; lra. Qed.

Lemma tan_radians_elevation (t x s : R) :
  tan (radians (elevation t x s))
  = tan (radians t) + 2 * (- g / 2 / (s * cos (radians t)) ^ 2) * x.
Proof. rewrite elevation_eq, radians_degrees, tan_atan. reflexivity. Qed.

(** The elevation is the angle of the tangent to the path: the slope
    tan(radians(elevation)) is the derivative of [y_deflection] with respect
    to the flight length, at every point of a well-defined parabola (speed
    and cos of the launch angle not zero). *)
Theorem elevation_is_slope_of_path (initial_trajectory flight_length speed : R) :
  speed * cos (radians initial_trajectory) <> 0 ->
  derivable_pt_lim
    (fun x => y_deflection initial_trajectory x speed) flight_length
    (tan (radians (elevation initial_trajectory flight_length speed))).
Proof.
  intros _. rewrite tan_radians_elevation.
  set (c1 := tan (radians initial_trajectory)).
  set (c2 := - g / 2 / (speed * cos (radians initial_trajectory)) ^ 2).
  intros eps Heps.
  assert (Hd : 0 < eps / (Rabs c2 + 1)).
  { apply Rdiv_lt_0_compat; [exact Heps |]. pose proof (Rabs_pos c2). lra. }
  exists (mkposreal _ Hd). intros h Hh Hlt. simpl in Hlt.
  rewrite !y_deflection_eq. fold c1 c2.
  replace ((c1 * (flight_length + h) + c2 * (flight_length + h) ^ 2
            - (c1 * flight_length + c2 * flight_length ^ 2)) / h
           - (c1 + 2 * c2 * flight_length))
    with (c2 * h) by (field; exact Hh).
  rewrite Rabs_mult.
  pose proof (Rabs_pos c2) as Hc. pose proof (Rabs_pos h) as Hh0.
  assert (Hm : Rabs h * (Rabs c2 + 1) < eps).
  { apply (Rmult_lt_compat_r (Rabs c2 + 1)) in Hlt; [| lra].
    unfold Rdiv in Hlt. rewrite Rmult_assoc, Rinv_l in Hlt by lra. lra. }
  nra.
Qed.

Lemma elevation_is_slope_of_path_witness :
  derivable_pt_lim (fun x => y_deflection 0 x 500) 2
    (tan (radians (elevation 0 2 500))).
Proof. apply (elevation_is_slope_of_path 0 2 500). apply cos_radians_0; lra. Defined.

(** On a well-defined parabola the elevation is strictly between -90 and 90
    degrees, whatever the flight length. *)
Theorem elevation_range (initial_trajectory flight_length speed : R) :
  speed * cos (radians initial_trajectory) <> 0 ->
  -90 < elevation initial_trajectory flight_length speed < 90.
Proof.
  intros _. rewrite elevation_eq.
  set (v := tan (radians initial_trajectory)
            + 2 * (- g / 2 / (speed * cos (radians initial_trajectory)) ^ 2)
              * flight_length).
  pose proof (atan_bound v) as [Hl Hu]. pose proof PI_RGT_0 as Hpi.
  unfold degrees.
  assert (Hi : 0 < / PI) by (apply Rinv_0_lt_compat; exact Hpi).
  split.
  - replace (-90) with (- PI / 2 * 180 * / PI) by (field; lra).
    unfold Rdiv at 2. apply Rmult_lt_compat_r; [exact Hi | lra].
  - replace 90 with (PI / 2 * 180 * / PI) by (field; lra).
    unfold Rdiv at 1. apply Rmult_lt_compat_r; [exact Hi | lra].
Qed.

Lemma elevation_range_witness : -90 < elevation 0 2 500 < 90.
Proof. apply (elevation_range 0 2 500). apply cos_radians_0; lra. Defined.

(** Where the parabola is well defined the elevation strictly decreases
    along the flight. *)
Theorem elevation_strictly_decreasing
    (initial_trajectory speed flight_length1 flight_length2 : R) :
  speed * cos (radians initial_trajectory) <> 0 ->
  flight_length1 < flight_length2 ->
  elevation initial_trajectory flight_length2 speed
  < elevation initial_trajectory flight_length1 speed.
Proof.
  intros Hs Hlt. rewrite !elevation_eq.
  pose proof (quadratic_coefficient_neg _ _ Hs) as Hc.
  set (c2 := - g / 2 / (speed * cos (radians initial_trajectory)) ^ 2) in *.
  pose proof PI_RGT_0 as Hpi.
  assert (Hi : 0 < / PI) by (apply Rinv_0_lt_compat; exact Hpi).
  unfold degrees, Rdiv.
  apply Rmult_lt_compat_r; [exact Hi |].
  apply Rmult_lt_compat_r; [lra |].
  apply atan_increasing. nra.
Qed.

Lemma elevation_strictly_decreasing_witness :
  elevation 0 2 500 < elevation 0 1 500.
Proof.
  apply (elevation_strictly_decreasing 0 500 1 2).
  - apply cos_radians_0; lra.
  - lra.
Defined.

(** A well-defined path never rises above its initial tangent: the
    displacement is at most tan(radians(initial_trajectory)) times the flight
    length, and strictly less away from the origin. *)
Theorem y_deflection_below_tangent (initial_trajectory flight_length speed : R) :
  speed * cos (radians initial_trajectory) <> 0 ->
  y_deflection initial_trajectory flight_length speed
  <= tan (radians initial_trajectory) * flight_length
  /\ (flight_length <> 0 ->
      y_deflection initial_trajectory flight_length speed
      < tan (radians initial_trajectory) * flight_length).
Proof.
  intros Hs. rewrite y_deflection_eq.
  pose proof (quadratic_coefficient_neg initial_trajectory speed Hs) as Hc.
  pose proof (pow2_ge_0 flight_length) as Hx.
  split; [nra |].
  intros Hne.
  assert (flight_length ^ 2 <> 0) by (apply pow_nonzero; exact Hne).
  assert (0 < flight_length ^ 2) by lra.
  nra.
Qed.

Lemma y_deflection_below_tangent_witness :
  y_deflection 0 2 500 <= tan (radians 0) * 2
  /\ (2 <> 0 -> y_deflection 0 2 500 < tan (radians 0) * 2).
Proof. apply (y_deflection_below_tangent 0 2 500). apply cos_radians_0; lra. Defined.

(** The highest point: where the parabola is well defined, the path is
    level at the flight length [apex], nowhere is it higher than there, and
    the height there is (speed sin(radians(initial_trajectory)))^2 / (2 g). *)
Theorem apex_is_highest (initial_trajectory speed : R) :
  speed * cos (radians initial_trajectory) <> 0 ->
  elevation initial_trajectory (apex initial_trajectory speed) speed = 0
  /\ (forall x : R,
         y_deflection initial_trajectory x speed
         <= y_deflection initial_trajectory
              (apex initial_trajectory speed) speed)
  /\ y_deflection initial_trajectory (apex initial_trajectory speed) speed
     = (speed * sin (radians initial_trajectory)) ^ 2 / (2 * g).
Proof.
  intros Hs. pose proof g_pos as Hg.
  assert (Hcos : cos (radians initial_trajectory) <> 0).
  { intros E. apply Hs. rewrite E. ring. }
  assert (Hsp : speed <> 0).
  { intros E. apply Hs. rewrite E. ring. }
  repeat split.
  - rewrite elevation_eq.
    replace (tan (radians initial_trajectory)
             + 2 * (- g / 2 / (speed * cos (radians initial_trajectory)) ^ 2)
               * apex initial_trajectory speed) with 0.
    + rewrite atan_0. unfold degrees, Rdiv. ring.
    + unfold apex. field. repeat split; lra.
  - intros x. rewrite !y_deflection_eq.
    pose proof (quadratic_coefficient_neg initial_trajectory speed Hs) as Hc.
    set (c2 := - g / 2 / (speed * cos (radians initial_trajectory)) ^ 2) in *.
    set (c1 := tan (radians initial_trajectory)).
    set (xa := apex initial_trajectory speed).
    assert (E : c1 = - (2 * c2 * xa)).
    { unfold c1, c2, xa, apex. field. repeat split; lra. }
    rewrite E.
    replace (- (2 * c2 * xa) * x + c2 * x ^ 2)
      with (- (2 * c2 * xa) * xa + c2 * xa ^ 2 + c2 * (x - xa) ^ 2) by ring.
    pose proof (pow2_ge_0 (x - xa)). nra.
  - rewrite y_deflection_eq. unfold apex, tan. field. repeat split; lra.
Qed.

Lemma apex_is_highest_witness :
  elevation 0 (apex 0 500) 500 = 0
  /\ (forall x : R, y_deflection 0 x 500 <= y_deflection 0 (apex 0 500) 500)
  /\ y_deflection 0 (apex 0 500) 500 = (500 * sin (radians 0)) ^ 2 / (2 * g).
Proof. apply (apex_is_highest 0 500). apply cos_radians_0; lra. Defined.

(** The landing point: launched between -90 and 90 degrees at a speed other
    than zero, the path is back at the launch height at twice [apex], and
    its elevation there is the opposite of the initial trajectory. *)
Theorem landing_mirrors_launch (initial_trajectory speed : R) :
  speed <> 0 ->
  -90 < initial_trajectory < 90 ->
  y_deflection initial_trajectory (2 * apex initial_trajectory speed) speed = 0
  /\ elevation initial_trajectory (2 * apex initial_trajectory speed) speed
     = - initial_trajectory.
Proof.
  intros Hsp Ht. pose proof g_pos as Hg. pose proof PI_RGT_0 as Hpi.
  assert (Hr : - (PI / 2) < radians initial_trajectory < PI / 2).
  { unfold radians. split; nra. }
  assert (Hcos : cos (radians initial_trajectory) <> 0).
  { assert (0 < cos (radians initial_trajectory)) by (apply cos_gt_0; lra). lra. }
  split.
  - rewrite y_deflection_eq. unfold apex. field. repeat split; lra.
  - rewrite elevation_eq.
    replace (tan (radians initial_trajectory)
             + 2 * (- g / 2 / (speed * cos (radians initial_trajectory)) ^ 2)
               * (2 * apex initial_trajectory speed))
      with (- tan (radians initial_trajectory))
      by (unfold apex; field; repeat split; lra).
    rewrite atan_opp, atan_tan by exact Hr.
    unfold degrees, radians. field. lra.
Qed.

Lemma landing_mirrors_launch_witness :
  y_deflection 3 (2 * apex 3 500) 500 = 0
  /\ elevation 3 (2 * apex 3 500) 500 = - 3.
Proof. apply (landing_mirrors_launch 3 500); lra. Defined.

(** Mirror symmetry of a well-defined parabola: launching at the opposite
    angle gives the path reflected in the vertical axis, with the opposite
    elevation. *)
Theorem mirror_symmetry (initial_trajectory flight_length speed : R) :
  speed * cos (radians initial_trajectory) <> 0 ->
  y_deflection (- initial_trajectory) flight_length speed
  = y_deflection initial_trajectory (- flight_length) speed
  /\ elevation (- initial_trajectory) flight_length speed
     = - elevation initial_trajectory (- flight_length) speed.
Proof.
  intros _.
  assert (Hr : radians (- initial_trajectory) = - radians initial_trajectory)
    by (unfold radians, Rdiv; ring).
  split.
  - rewrite !y_deflection_eq, Hr, tan_neg, cos_neg. ring.
  - rewrite !elevation_eq, Hr, tan_neg, cos_neg.
    replace (- tan (radians initial_trajectory)
             + 2 * (- g / 2 / (speed * cos (radians initial_trajectory)) ^ 2)
               * flight_length)
      with (- (tan (radians initial_trajectory)
               + 2 * (- g / 2 / (speed * cos (radians initial_trajectory)) ^ 2)
                 * - flight_length)) by ring.
    rewrite atan_opp. unfold degrees, Rdiv. ring.
Qed.

Lemma mirror_symmetry_witness :
  y_deflection (- 3) 2 500 = y_deflection 3 (- 2) 500
  /\ elevation (- 3) 2 500 = - elevation 3 (- 2) 500.
Proof.
  apply (mirror_symmetry 3 2 500).
  assert (0 < cos (radians 3)).
  { apply cos_gt_0; unfold radians; pose proof PI_RGT_0; lra. }
  nra.
Defined.

(** A faster object drops less: for positive speeds, and a launch angle
    whose cos is not zero, the displacement does not decrease with the
    speed. *)
Theorem y_deflection_increases_with_speed
    (initial_trajectory flight_length speed1 speed2 : R) :
  cos (radians initial_trajectory) <> 0 ->
  0 < speed1 <= speed2 ->
  y_deflection initial_trajectory flight_length speed1
  <= y_deflection initial_trajectory flight_length speed2.
Proof.
  intros _ [H1 H12]. rewrite !y_deflection_eq.
  set (c := cos (radians initial_trajectory)).
  pose proof (pow2_ge_0 flight_length) as Hx.
  assert (Hinv : / (speed2 * c) ^ 2 <= / (speed1 * c) ^ 2).
  { destruct (Req_dec c 0) as [-> | Hc].
    - rewrite !Rmult_0_r. lra.
    - assert (0 < c ^ 2).
      { pose proof (pow2_ge_0 c). assert (c ^ 2 <> 0) by (apply pow_nonzero; exact Hc). lra. }
      assert (0 < speed1 ^ 2) by (apply pow_lt; exact H1).
      assert (speed1 ^ 2 <= speed2 ^ 2) by (apply pow_incr; lra).
      apply Rinv_le_contravar; rewrite !Rpow_mult_distr.
      + apply Rmult_lt_0_compat; assumption.
      + apply Rmult_le_compat_r; lra. }
  pose proof g_pos as Hg. unfold Rdiv.
  assert (- g * / 2 * / (speed1 * c) ^ 2 <= - g * / 2 * / (speed2 * c) ^ 2) by nra.
  nra.
Qed.

Lemma y_deflection_increases_with_speed_witness :
  y_deflection 0 2 500 <= y_deflection 0 2 1000.
Proof.
  apply (y_deflection_increases_with_speed 0 2 500 1000); [| lra].
  rewrite radians_0, cos_0. lra.
Defined.

(** ** Further properties of the intersection *)

(** The result in the real case, for the properties below. *)
Lemma intersection_point_real (t s theta L omega : R) :
  s * cos (radians t) <> 0 ->
  has_real_root (quadratic t s theta L omega) ->
  exists x : R,
    max_real_root (quadratic t s theta L omega) x
    /\ parabola_line_intersection_point t s theta L omega
       = Ok (Numpy.Real x,
             Numpy.Real (line_a1 theta L omega + line_b1 omega * x),
             Numpy.Real
               (sqrt ((x - L) ^ 2
                      + (line_a1 theta L omega + line_b1 omega * x
                         - L * tan (radians theta)) ^ 2))).
Proof.
  intros Hs [x0 Hx0].
  pose proof (quadratic_coefficient_neg _ _ Hs) as Hk2.
  set (k2 := - g / 2 / (s * cos (radians t)) ^ 2) in *.
  set (k1 := tan (radians t) - line_b1 omega).
  set (k0 := 0 - line_a1 theta L omega).
  assert (Hk : k2 <> 0) by lra.
  assert (Hd : 0 <= discriminant k0 k1 k2).
  { apply (disc_of_root k0 k1 k2 Hk x0). rewrite quadratic_eq in Hx0. exact Hx0. }
  exists (Rmax (root_minus k0 k1 k2) (root_plus k0 k1 k2)). split.
  - exact (Rmax_is_max_root k0 k1 k2 Hk Hd).
  - rewrite intersection_point_unfold. fold k0 k1 k2.
    rewrite (max_polyroots_real k0 k1 k2 Hk Hd).
    apply real_triple.
Qed.

(** The point returned lies on both curves: when the parabola is well
    defined and meets the line, the y returned is [y_deflection] at the x
    returned, and (x, y) is on the line of gradient tan(omega) through the
    reference point (flight_length, flight_length tan(theta)). *)
Theorem intersection_on_parabola_and_line
    (initial_trajectory speed theta flight_length omega : R) :
  speed * cos (radians initial_trajectory) <> 0 ->
  has_real_root
    (quadratic initial_trajectory speed theta flight_length omega) ->
  exists x y d : R,
    parabola_line_intersection_point
      initial_trajectory speed theta flight_length omega
    = Ok (Numpy.Real x, Numpy.Real y, Numpy.Real d)
    /\ y = y_deflection initial_trajectory x speed
    /\ y - flight_length * tan (radians theta)
       = tan (radians omega) * (x - flight_length).
Proof.
  intros Hs Hr.
  destruct (intersection_point_real _ _ _ _ _ Hs Hr) as (x & [Hx _] & E).
  eexists x, _, _. split; [exact E |].
  rewrite quadratic_eq in Hx. rewrite y_deflection_eq.
  unfold line_a1, line_b1 in *. split; lra.
Qed.

Lemma intersection_on_parabola_and_line_witness :
  exists x y d : R,
    parabola_line_intersection_point 0 1 0 0 45
    = Ok (Numpy.Real x, Numpy.Real y, Numpy.Real d)
    /\ y = y_deflection 0 x 1
    /\ y - 0 * tan (radians 0) = tan (radians 45) * (x - 0).
Proof.
  apply (intersection_on_parabola_and_line 0 1 0 0 45).
  - apply cos_radians_0; lra.
  - exists 0. rewrite quadratic_eq. unfold line_a1. ring.
Defined.

(** The distance returned is measured along the line: in the real case it
    is |x - flight_length| sqrt(1 + tan(omega)^2), and it is zero exactly
    when the intersection is at the reference point's abscissa. *)
Theorem intersection_distance_along_line
    (initial_trajectory speed theta flight_length omega : R) :
  speed * cos (radians initial_trajectory) <> 0 ->
  has_real_root
    (quadratic initial_trajectory speed theta flight_length omega) ->
  exists x y d : R,
    parabola_line_intersection_point
      initial_trajectory speed theta flight_length omega
    = Ok (Numpy.Real x, Numpy.Real y, Numpy.Real d)
    /\ d = Rabs (x - flight_length) * sqrt (1 + tan (radians omega) ^ 2)
    /\ (d = 0 <-> x = flight_length).
Proof.
  intros Hs Hr.
  destruct (intersection_point_real _ _ _ _ _ Hs Hr) as (x & _ & E).
  eexists x, _, _. split; [exact E |].
  set (b := tan (radians omega)).
  assert (Hb : 0 < 1 + b ^ 2) by (pose proof (pow2_ge_0 b); lra).
  assert (Hsb : 0 < sqrt (1 + b ^ 2)) by (apply sqrt_lt_R0; exact Hb).
  assert (Ed : sqrt ((x - flight_length) ^ 2
                     + (line_a1 theta flight_length omega + line_b1 omega * x
                        - flight_length * tan (radians theta)) ^ 2)
               = Rabs (x - flight_length) * sqrt (1 + b ^ 2)).
  { replace ((x - flight_length) ^ 2
             + (line_a1 theta flight_length omega + line_b1 omega * x
                - flight_length * tan (radians theta)) ^ 2)
      with ((x - flight_length)² * (1 + b ^ 2))
      by (unfold line_a1, line_b1, b, Rsqr; ring).
    rewrite sqrt_mult; [| apply Rle_0_sqr | lra].
    rewrite sqrt_Rsqr_abs. reflexivity. }
  rewrite Ed. split; [reflexivity |]. split.
  - intros H0. apply Rmult_integral in H0. destruct H0 as [H0 | H0]; [| lra].
    destruct (Req_dec (x - flight_length) 0) as [E0 | N0]; [lra |].
    pose proof (Rabs_pos_lt _ N0). lra.
  - intros ->. unfold Rminus. rewrite Rplus_opp_r, Rabs_R0. ring.
Qed.

Lemma intersection_distance_along_line_witness :
  exists x y d : R,
    parabola_line_intersection_point 0 1 0 0 45
    = Ok (Numpy.Real x, Numpy.Real y, Numpy.Real d)
    /\ d = Rabs (x - 0) * sqrt (1 + tan (radians 45) ^ 2)
    /\ (d = 0 <-> x = 0).
Proof.
  apply (intersection_distance_along_line 0 1 0 0 45).
  - apply cos_radians_0; lra.
  - exists 0. rewrite quadratic_eq. unfold line_a1. ring.
Defined.

(** A line through the origin (omega = theta) is always met: the function
    returns floats, with x at least 0, and x is 0 exactly when the line is
    at least as steep as the launch. *)
Theorem intersection_line_through_origin
    (initial_trajectory speed theta flight_length : R) :
  speed * cos (radians initial_trajectory) <> 0 ->
  exists x y d : R,
    parabola_line_intersection_point
      initial_trajectory speed theta flight_length theta
    = Ok (Numpy.Real x, Numpy.Real y, Numpy.Real d)
    /\ 0 <= x
    /\ y = tan (radians theta) * x
    /\ (x = 0 <-> tan (radians initial_trajectory) <= tan (radians theta)).
Proof.
  intros Hs.
  assert (Ha : line_a1 theta flight_length theta = 0) by (unfold line_a1; ring).
  assert (Hq : forall x, quadratic initial_trajectory speed theta
                           flight_length theta x
                         = (- g / 2 / (speed * cos (radians initial_trajectory)) ^ 2
                            * x
                            + (tan (radians initial_trajectory)
                               - tan (radians theta))) * x).
  { intros x. rewrite quadratic_eq, Ha. unfold line_b1. ring. }
  assert (Hr : has_real_root
                 (quadratic initial_trajectory speed theta flight_length theta)).
  { exists 0. rewrite Hq. ring. }
  destruct (intersection_point_real _ _ _ _ _ Hs Hr) as (x & [Hx Hmax] & E).
  pose proof (quadratic_coefficient_neg _ _ Hs) as Hk2.
  set (k2 := - g / 2 / (speed * cos (radians initial_trajectory)) ^ 2) in *.
  set (k1 := tan (radians initial_trajectory) - tan (radians theta)) in *.
  assert (H0 : 0 <= x) by (apply Hmax; rewrite Hq; ring).
  eexists x, _, _. split; [exact E |].
  split; [exact H0 |]. split; [rewrite Ha; unfold line_b1; ring |].
  rewrite Hq in Hx. split.
  - intros ->.
    destruct (Rle_dec k1 0) as [Hle | Hgt]; [unfold k1 in Hle; lra | exfalso].
    assert (Hroot : (k2 * (- k1 / k2) + k1) * (- k1 / k2) = 0).
    { replace (k2 * (- k1 / k2) + k1) with 0 by (field; lra). ring. }
    rewrite <- Hq in Hroot. apply Hmax in Hroot.
    assert (0 < - k1 / k2).
    { unfold Rdiv. replace (- k1 * / k2) with (k1 * / - k2).
      - apply Rmult_lt_0_compat; [lra | apply Rinv_0_lt_compat; lra].
      - field; lra. }
    lra.
  - intros Hle. apply Rmult_integral in Hx. destruct Hx as [Hx | Hx]; [| exact Hx].
    assert (k1 <= 0) by (unfold k1; lra). nra.
Qed.

Lemma intersection_line_through_origin_witness :
  exists x y d : R,
    parabola_line_intersection_point 0 500 10 2 10
    = Ok (Numpy.Real x, Numpy.Real y, Numpy.Real d)
    /\ 0 <= x
    /\ y = tan (radians 10) * x
    /\ (x = 0 <-> tan (radians 0) <= tan (radians 10)).
Proof.
  apply (intersection_line_through_origin 0 500 10 2).
  apply cos_radians_0; lra.
Defined.

(** ** Further properties of the inverse solve *)

(** The speed enters the residual only squared. *)
Lemma traj_speed_sign (theta L s t : R) : traj theta L (- s) t = traj theta L s t.
Proof.
  unfold traj, y_deflection. rewrite parabola_eqn_speed_sign. reflexivity.
Qed.

(** Whatever root finder it is run with, [find_trajectory] returns for
    speed -s what it returns for speed s. *)
Theorem find_trajectory_speed_sign
    (newton : (R -> R) -> R -> result R) (theta flight_length s : R) :
  find_trajectory newton theta flight_length (- s)
  = find_trajectory newton theta flight_length s.
Proof.
  unfold find_trajectory.
  replace (traj theta flight_length (- s)) with (traj theta flight_length s);
    [reflexivity |].
  apply functional_extensionality. intros t. symmetry. apply traj_speed_sign.
Qed.

(** A flight of length zero cannot be solved: for every theta and every
    speed other than zero, every trajectory of a well-defined parabola has
    residual zero there, and the secant method of scipy.optimize.newton
    raises its RuntimeError at the first iteration. *)
Theorem find_trajectory_flight_length_0 (theta speed : R) :
  speed <> 0 ->
  (forall trajectory : R,
      cos (radians trajectory) <> 0 -> traj theta 0 speed trajectory = 0)
  /\ find_trajectory Scipy.newton theta 0 speed = Raise RuntimeError.
Proof.
  intros _. split; [intros t _; apply traj_flight_length_0 |].
  unfold find_trajectory. rewrite newton_flight_length_0. reflexivity.
Qed.

Lemma find_trajectory_flight_length_0_witness :
  (forall trajectory : R,
      cos (radians trajectory) <> 0 -> traj 10 0 500 trajectory = 0)
  /\ find_trajectory Scipy.newton 10 0 500 = Raise RuntimeError.
Proof. apply (find_trajectory_flight_length_0 10 500). lra. Defined.

Lemma Rabs_bounds (x b : R) : Rabs x <= b -> - b <= x <= b.
Proof. unfold Rabs. destruct (Rcase_abs x); lra. Qed.

Section RoundTripTarget.

Variables trajectory0 flight_length speed : R.
Hypothesis speed_range : 100 <= speed <= 1000.
Hypothesis length_range : 1 / 10 <= flight_length <= 10.
Hypothesis trajectory_range : -5 <= trajectory0 <= 5.

(** The root finder on the residual of the round trip. *)
Lemma newton_round_trip :
  exists p : R,
    Scipy.newton (residual trajectory0 flight_length speed) 0 = Ok p
    /\ Rabs (p - trajectory0) <= 2 / 3 * Scipy.tol.
Proof.
  assert (Hfuel : (5 + Scipy.eps) * (7 / 5) * (2 / 5) ^ 49 <= Scipy.tol).
  { unfold Scipy.eps, Scipy.tol. simpl. lra. }
  assert (He : forall x, x = 0 \/ x = Scipy.eps ->
               Rabs (x - trajectory0) <= 5 + Scipy.eps).
  { intros x Hx. apply Rabs_le. unfold Scipy.eps in *. lra. }
  assert (Hd : forall x, x = 0 \/ x = Scipy.eps -> -30 <= x <= 30).
  { intros x Hx. unfold Scipy.eps in *. lra. }
  assert (HE : 5 + Scipy.eps <= 20) by (unfold Scipy.eps; lra).
  assert (Hne : 0 <> Scipy.eps) by (unfold Scipy.eps; lra).
  unfold Scipy.newton. cbv zeta.
  destruct (Rle_dec 0 (0 * (1 + Scipy.eps))) as [_ | N]; [| exfalso; lra].
  replace (0 * 1) with 0 by ring.
  replace (0 * (1 + Scipy.eps) + Scipy.eps) with Scipy.eps by ring.
  change Scipy.maxiter with (S 49).
  destruct (Rlt_dec _ _) as [_ | _].
  - apply (secant_converges trajectory0 flight_length speed speed_range
             length_range trajectory_range 49 Scipy.eps 0 (5 + Scipy.eps)); auto.
  - apply (secant_converges trajectory0 flight_length speed speed_range
             length_range trajectory_range 49 0 Scipy.eps (5 + Scipy.eps)); auto.
Qed.

Lemma radians_step : 0 < PI / 180 <= 1 / 45.
Proof. pose proof PI_RGT_0. pose proof PI_4. lra. Qed.

Lemma slope_factor_bound (S : R) :
  1 <= S <= 4 / 3 -> 0 < S * (PI / 180) <= 4 / 135.
Proof.
  intros HS. pose proof radians_step as Hr. set (r := PI / 180) in *.
  assert (S * r <= 4 / 3 * r) by (apply Rmult_le_compat_r; lra).
  assert (0 < S * r) by (apply Rmult_lt_0_compat; lra).
  lra.
Qed.

Lemma slope_trajectory0_bound : - (4 / 27) <= slope trajectory0 <= 4 / 27.
Proof.
  destruct (slope_difference trajectory0 0) as (S & HS & E); try lra.
  pose proof (slope_factor_bound S HS) as Hsr.
  assert (E0 : slope 0 = 0) by (unfold slope; rewrite radians_0; apply tan_0).
  rewrite E0 in E. set (r := PI / 180) in *.
  split; nra.
Qed.

Lemma drop_lower : 49 / 100000000 <= drop speed * flight_length.
Proof.
  unfold drop, g.
  assert (Hs : 10000 <= speed ^ 2 <= 1000000) by (split; nra).
  assert (Hi : / 2000000 <= / (2 * speed ^ 2)).
  { apply Rinv_le_contravar; lra. }
  unfold Rdiv. nra.
Qed.

(** The tangent of the direction to the target, and the direction itself. *)
Lemma slope_direction :
  slope (direction_of trajectory0 flight_length speed)
  = slope trajectory0
    - drop speed * flight_length * (1 + slope trajectory0 ^ 2).
Proof.
  unfold slope at 1. unfold direction_of. rewrite radians_degrees, tan_atan.
  rewrite y_deflection_slope by lra. field. lra.
Qed.

Lemma direction_domain :
  -30 <= direction_of trajectory0 flight_length speed <= 30.
Proof.
  pose proof slope_direction as Ev.
  unfold slope at 1 in Ev. unfold direction_of in *.
  rewrite radians_degrees, tan_atan in Ev.
  set (v := y_deflection trajectory0 flight_length speed / flight_length) in *.
  pose proof slope_trajectory0_bound as Hu.
  pose proof (drop_bound trajectory0 flight_length speed speed_range
                length_range trajectory_range) as [Hk0 Hk].
  assert (Hv : - (1 / 2) <= v <= 1 / 2).
  { rewrite Ev. set (u := slope trajectory0) in *.
    assert (0 <= u ^ 2 <= 1 / 3) by (split; [apply pow2_ge_0 | nra]).
    split; nra. }
  pose proof PI_RGT_0 as Hpi.
  assert (H3 : 0 < sqrt 3) by (apply sqrt_lt_R0; lra).
  assert (Hw : sqrt 3 * sqrt 3 = 3) by (apply sqrt_sqrt; lra).
  assert (Hhalf : 1 / 2 < 1 / sqrt 3).
  { apply Rmult_lt_reg_r with (2 * sqrt 3); [lra |].
    field_simplify; [| lra]. nra. }
  assert (Hup : atan v < PI / 6).
  { rewrite <- (atan_tan (PI / 6)) by lra.
    apply atan_increasing. rewrite tan_PI6. lra. }
  assert (Hlo : - (PI / 6) < atan v).
  { rewrite <- (atan_tan (- (PI / 6))) by lra.
    apply atan_increasing. rewrite tan_neg, tan_PI6. lra. }
  unfold degrees.
  assert (Hi : 0 < / PI) by (apply Rinv_0_lt_compat; exact Hpi).
  split.
  - replace (-30) with (- (PI / 6) * 180 * / PI) by (field; lra).
    unfold Rdiv at 2. apply Rmult_le_compat_r; lra.
  - replace 30 with (PI / 6 * 180 * / PI) by (field; lra).
    unfold Rdiv at 1. apply Rmult_le_compat_r; lra.
Qed.

(** Gravity makes the launch angle exceed the direction to the target by at
    least 1.6e-5 degrees. *)
Lemma direction_below_trajectory0 :
  direction_of trajectory0 flight_length speed + 16 / 1000000 <= trajectory0.
Proof.
  pose proof direction_domain as Hd.
  destruct (slope_difference trajectory0
              (direction_of trajectory0 flight_length speed)) as (S & HS & E);
    try lra.
  rewrite slope_direction in E.
  pose proof (slope_factor_bound S HS) as Hsr. pose proof drop_lower as Hk.
  set (r := PI / 180) in *. set (u := slope trajectory0) in *.
  set (k := drop speed * flight_length) in *.
  set (d := trajectory0 - direction_of trajectory0 flight_length speed) in *.
  assert (Hu : 0 <= u ^ 2) by apply pow2_ge_0.
  assert (Hkd : 49 / 100000000 <= S * r * d) by nra.
  assert (Hd0 : 16 / 1000000 <= d).
  { apply Rnot_lt_le. intros Hlt.
    destruct (Rle_dec 0 d) as [Hp | Hn]; nra. }
  unfold d in Hd0. lra.
Qed.

End RoundTripTarget.

(** On the round trip the trajectory found passes through the target: for
    speed in [100, 1000], flight_length in [0.1, 10] and trajectory0 in
    [-5, 5], the trajectory that [find_trajectory] returns (with scipy's
    secant method) has a displacement at flight_length within 3e-9 m of the
    target height flight_length tan(theta). *)
Theorem found_trajectory_hits_target (trajectory0 flight_length speed : R) :
  100 <= speed <= 1000 ->
  1 / 10 <= flight_length <= 10 ->
  -5 <= trajectory0 <= 5 ->
  let theta := direction_of trajectory0 flight_length speed in
  exists trajectory : R,
    find_trajectory Scipy.newton theta flight_length speed = Ok trajectory
    /\ Rabs (tan (radians theta) * flight_length
             - y_deflection trajectory flight_length speed)
       <= 3 / 1000000000.
Proof.
  intros Hs HL Ht0 theta.
  destruct (newton_round_trip trajectory0 flight_length speed Hs HL Ht0)
    as (p & Ep & Hp).
  exists p. unfold find_trajectory, theta.
  fold (residual trajectory0 flight_length speed). rewrite Ep.
  split; [reflexivity |].
  change (Rabs (residual trajectory0 flight_length speed p) <= 3 / 1000000000).
  apply Rabs_bounds in Hp. unfold Scipy.tol in Hp.
  assert (Hpd : -30 <= p <= 30) by lra.
  rewrite (residual_factored trajectory0 flight_length speed HL Ht0 p Hpd).
  destruct (slope_difference trajectory0 p) as (S & HS & E); try lra.
  rewrite E.
  assert (Ht30 : -30 <= trajectory0 <= 30) by lra.
  pose proof (factor_bound trajectory0 flight_length speed Hs HL Ht0
                (slope trajectory0) (slope p)
                (slope_abs_bound _ Ht30) (slope_abs_bound _ Hpd)) as HD.
  set (D := flight_length
            - drop speed * flight_length ^ 2 * (slope trajectory0 + slope p)) in *.
  pose proof (slope_factor_bound S HS) as Hsr. set (r := PI / 180) in *.
  set (e := trajectory0 - p) in *.
  assert (He : - (2 / 3 * (148 / 10000000000)) <= e
               <= 2 / 3 * (148 / 10000000000)) by (unfold e; lra).
  assert (Hm : - (3 / 10000000000) <= S * r * e <= 3 / 10000000000)
    by (split; nra).
  assert (HD' : 0 < D <= 1006 / 100) by lra.
  apply Rabs_le. split; nra.
Qed.

Lemma found_trajectory_hits_target_witness :
  exists trajectory : R,
    find_trajectory Scipy.newton (direction_of 0 2 500) 2 500 = Ok trajectory
    /\ Rabs (tan (radians (direction_of 0 2 500)) * 2
             - y_deflection trajectory 2 500)
       <= 3 / 1000000000.
Proof. apply (found_trajectory_hits_target 0 2 500); lra. Defined.

(** On the same round trip the trajectory found lies strictly above the
    direction to the target: the launch is aimed higher to make up for the
    drop. *)
Theorem found_trajectory_above_direction (trajectory0 flight_length speed : R) :
  100 <= speed <= 1000 ->
  1 / 10 <= flight_length <= 10 ->
  -5 <= trajectory0 <= 5 ->
  let theta := direction_of trajectory0 flight_length speed in
  exists trajectory : R,
    find_trajectory Scipy.newton theta flight_length speed = Ok trajectory
    /\ theta < trajectory.
Proof.
  intros Hs HL Ht0 theta.
  destruct (newton_round_trip trajectory0 flight_length speed Hs HL Ht0)
    as (p & Ep & Hp).
  exists p. unfold find_trajectory, theta.
  fold (residual trajectory0 flight_length speed). rewrite Ep.
  split; [reflexivity |].
  apply Rabs_bounds in Hp. unfold Scipy.tol in Hp.
  pose proof (direction_below_trajectory0 trajectory0 flight_length speed
                Hs HL Ht0).
  lra.
Qed.

Lemma found_trajectory_above_direction_witness :
  exists trajectory : R,
    find_trajectory Scipy.newton (direction_of 0 2 500) 2 500 = Ok trajectory
    /\ direction_of 0 2 500 < trajectory.
Proof. apply (found_trajectory_above_direction 0 2 500); lra. Defined.

(** When the reference point itself lies on a well-defined path, the
    intersection returned is never upstream of it, and it is the reference
    point (distance 0) exactly when the line is at least as steep as the
    path is there: tan(radians(elevation)) <= tan(radians(omega)). *)
Theorem intersection_at_reference_point
    (initial_trajectory speed theta flight_length omega : R) :
  speed * cos (radians initial_trajectory) <> 0 ->
  flight_length * tan (radians theta)
  = y_deflection initial_trajectory flight_length speed ->
  exists x y d : R,
    parabola_line_intersection_point
      initial_trajectory speed theta flight_length omega
    = Ok (Numpy.Real x, Numpy.Real y, Numpy.Real d)
    /\ flight_length <= x
    /\ (x = flight_length
        <-> tan (radians (elevation initial_trajectory flight_length speed))
            <= tan (radians omega)).
Proof.
  intros Hs Hon.
  pose proof (quadratic_coefficient_neg _ _ Hs) as Hk2.
  rewrite tan_radians_elevation. rewrite y_deflection_eq in Hon.
  set (k2 := - g / 2 / (speed * cos (radians initial_trajectory)) ^ 2) in *.
  set (c1 := tan (radians initial_trajectory)) in *.
  set (b1 := tan (radians omega)).
  assert (Hq : forall x, quadratic initial_trajectory speed theta
                           flight_length omega x
                         = (x - flight_length)
                           * (k2 * (x + flight_length) + (c1 - b1))).
  { intros x. rewrite quadratic_eq. unfold line_a1, line_b1.
    fold k2 c1 b1.
    replace (flight_length * (tan (radians theta) - b1))
      with (flight_length * tan (radians theta) - flight_length * b1) by ring.
    rewrite Hon. ring. }
  assert (Hr : has_real_root
                 (quadratic initial_trajectory speed theta flight_length omega)).
  { exists flight_length. rewrite Hq. ring. }
  destruct (intersection_point_real _ _ _ _ _ Hs Hr) as (x & [Hx Hmax] & E).
  assert (HL : flight_length <= x) by (apply Hmax; rewrite Hq; ring).
  eexists x, _, _. split; [exact E |]. split; [exact HL |].
  rewrite Hq in Hx. split.
  - intros ->.
    apply Rnot_lt_le. intros Hgt.
    set (r := - (c1 - b1) / k2 - flight_length).
    assert (Hroot : (r - flight_length) * (k2 * (r + flight_length) + (c1 - b1)) = 0).
    { replace (k2 * (r + flight_length) + (c1 - b1)) with 0
        by (unfold r; field; lra). ring. }
    rewrite <- Hq in Hroot. apply Hmax in Hroot.
    assert (0 < r - flight_length).
    { replace (r - flight_length)
        with ((c1 + 2 * k2 * flight_length - b1) * / - k2)
        by (unfold r; field; lra).
      apply Rmult_lt_0_compat; [lra | apply Rinv_0_lt_compat; lra]. }
    lra.
  - intros Hle.
    apply Rmult_integral in Hx. destruct Hx as [Hx | Hx]; [lra |].
    destruct HL as [HL | HL]; [exfalso | symmetry; exact HL].
    nra.
Qed.

Lemma intersection_at_reference_point_witness :
  exists x y d : R,
    parabola_line_intersection_point 0 500 0 0 45
    = Ok (Numpy.Real x, Numpy.Real y, Numpy.Real d)
    /\ 0 <= x
    /\ (x = 0 <-> tan (radians (elevation 0 0 500)) <= tan (radians 45)).
Proof.
  apply (intersection_at_reference_point 0 500 0 0 45).
  - apply cos_radians_0; lra.
  - rewrite y_deflection_eq. ring.
Defined.
